(** * hydrojudge: the default judge strategy

    A shallow embedding of [packages/hydrojudge/src/judge/default.ts]:
    the per-case runner [judgeCase] and the compile stage wired into the
    flow engine by [judge].

    The TypeScript code is asynchronous and talks to collaborators that
    live outside the file (the sandbox, the checker registry, the flow
    engine, methods of the judge context).  It is embedded as explicit
    state passing: a computation takes the current state (the mutable
    judge context, the state of the collaborators, and a log of the calls
    made so far) and gives an outcome (a value or a thrown error) and the
    next state.  JavaScript numbers are integers here ([Z]); objects used
    as dictionaries are finite maps. *)

From Stdlib Require Import ZArith Lia.
From stdpp Require Import base decidable option list strings gmap pretty.

Local Open Scope Z_scope.

(** ** Data model *)

(** Modelled from the spec: the [STATUS] table of
    [@hydrooj/utils/lib/status], whose source is not part of the two
    files.  The judge names five verdicts; every other constant of the
    table (the "checker-reported variants") is [STATUS_OTHER]. *)
Inductive Status : Type :=
  | STATUS_ACCEPTED
  | STATUS_WRONG_ANSWER
  | STATUS_TIME_LIMIT_EXCEEDED
  | STATUS_MEMORY_LIMIT_EXCEEDED
  | STATUS_RUNTIME_ERROR
  | STATUS_OTHER (value : Z).

Global Instance Status_eq_dec : EqDecision Status.
Proof. solve_decision. Defined.

(** What a case result carries as its message: the judge initialises it to
    the empty string, takes a Signal Table entry (a lookup that may find
    nothing, giving [undefined]), builds the template object
    [{ message, params }], or passes on what the checker gave. *)
Inductive Message : Type :=
  | MsgString (text : string)
  | MsgTemplate (message : string) (params : list Z)
  | MsgUndefined.

(** A sandbox file reference: [{ src }], [{ fileId }] or [{ content }]. *)
Inductive CopyInFile : Type :=
  | Src (src : string)
  | FileIdRef (fileId : string)
  | Content (content : string).

Record NormalizedCase : Type := {
  c_id : Z;
  c_input : string;
  c_output : string;
  c_time : Z;      (* milliseconds *)
  c_memory : Z;    (* kilobytes *)
  c_score : Z
}.

Record SubTask : Type := {
  sub_id : Z;
  sub_cases : list NormalizedCase
}.

Record ContextSubTask : Type := {
  subtask : SubTask
}.

(** A compiled program in the sandbox ([ctx.execute], [ctx.checker]). *)
Record Executable : Type := {
  exe_execute : string;
  exe_copyIn : option (gmap string CopyInFile)
}.

Record LangConfig : Type := {
  address_space_limit : option bool;
  process_limit : option Z
}.

Record Config : Type := {
  cfg_filename : string;
  cfg_checker_type : string;
  cfg_checker : string;
  cfg_detail : option bool;
  cfg_subtasks : list SubTask
}.

Record Request : Type := {
  rejudged : bool
}.

(** The judge context: request-scoped, shared by all the cases of a
    submission, mutated in place by the judge. *)
Record Context : Type := {
  ctx_lang : string;
  ctx_code : string;
  ctx_input : string;
  ctx_execute : Executable;
  ctx_checker : Executable;
  ctx_config : Config;
  ctx_env : gmap string string;
  ctx_rerun : Z;
  ctx_analysis : bool;
  ctx_request : Request
}.

Definition set_rerun (n : Z) (ctx : Context) : Context :=
  {| ctx_lang := ctx_lang ctx; ctx_code := ctx_code ctx;
     ctx_input := ctx_input ctx; ctx_execute := ctx_execute ctx;
     ctx_checker := ctx_checker ctx; ctx_config := ctx_config ctx;
     ctx_env := ctx_env ctx; ctx_rerun := n;
     ctx_analysis := ctx_analysis ctx; ctx_request := ctx_request ctx |}.

Definition set_analysis (b : bool) (ctx : Context) : Context :=
  {| ctx_lang := ctx_lang ctx; ctx_code := ctx_code ctx;
     ctx_input := ctx_input ctx; ctx_execute := ctx_execute ctx;
     ctx_checker := ctx_checker ctx; ctx_config := ctx_config ctx;
     ctx_env := ctx_env ctx; ctx_rerun := ctx_rerun ctx;
     ctx_analysis := b; ctx_request := ctx_request ctx |}.

Definition set_executables (e k : Executable) (ctx : Context) : Context :=
  {| ctx_lang := ctx_lang ctx; ctx_code := ctx_code ctx;
     ctx_input := ctx_input ctx; ctx_execute := e;
     ctx_checker := k; ctx_config := ctx_config ctx;
     ctx_env := ctx_env ctx; ctx_rerun := ctx_rerun ctx;
     ctx_analysis := ctx_analysis ctx; ctx_request := ctx_request ctx |}.

(** The parameters [judgeCase] hands to [runQueued]. *)
Record ExecRequest : Type := {
  rq_stdin : CopyInFile;
  rq_copyIn : option (gmap string CopyInFile);
  rq_filename : string;
  rq_time : Z;
  rq_memory : Z;
  rq_cacheStdoutAndStderr : bool;
  rq_addressSpaceLimit : option bool;
  rq_processLimit : option Z
}.

(** What the sandbox reports for one run. *)
Record RunResult : Type := {
  res_status : Status;
  res_code : option Z;       (* absent or a number *)
  res_signalled : bool;
  res_time : Z;              (* milliseconds *)
  res_memory : Z;            (* bytes *)
  res_fileIds : gmap string string
}.

(** The argument object of a checker and what it returns. *)
Record CheckerArgs : Type := {
  ck_execute : string;
  ck_copyIn : gmap string CopyInFile;
  ck_input : CopyInFile;
  ck_output : CopyInFile;
  ck_user_stdout : CopyInFile;
  ck_user_stderr : CopyInFile;
  ck_score : Z;
  ck_detail : bool;
  ck_env : gmap string string
}.

Record CheckerResult : Type := {
  chk_status : Status;
  chk_score : Z;
  chk_message : Message
}.

Record CaseResult : Type := {
  cr_id : Z;
  cr_subtaskId : Z;
  cr_status : Status;
  cr_score : Z;
  cr_time : Z;
  cr_memory : Z;
  cr_message : Message
}.

(** ** Calls and outcomes *)

(** The calls the judge makes to its collaborators, in the order they are
    made.  A method of the context records the context it is called on. *)
Inductive Event : Type :=
  | EvRunQueued (execute : string) (params : ExecRequest)
  | EvChecker (checker_type : string) (args : CheckerArgs)
  | EvDel (fileId : string)
  | EvRunner (ctxSubtask : ContextSubTask)
  | EvRunAnalysis (this : Context) (execute : Executable) (input : CopyInFile)
  | EvCompile (this : Context) (lang code : string)
  | EvCompileLocalFile (this : Context) (name file checker_type : string).

(** An awaited call resolves to a value or rejects with an error. *)
Inductive Outcome (A : Type) : Type :=
  | Ok (a : A)
  | Throw (e : string).
Arguments Ok {A} a.
Arguments Throw {A} e.

(** JavaScript truthiness of the values the judge tests. *)
Definition truthy_number (n : Z) : bool := negb (n =? 0).

Definition truthy_code (code : option Z) : bool :=
  match code with
  | Some n => truthy_number n
  | None => false
  end.

Definition truthy_string (s : option string) : bool :=
  match s with
  | Some t => negb (String.eqb t "")
  | None => false
  end.

(** ** The collaborators

    Everything [default.ts] imports or calls on the context but does not
    define.  [W] is the state of the outside world (sandbox, file store,
    checker processes); a call may change it and may throw.  The Signal
    Table and the checker registry are data: tables indexed by signal
    number and by checker-type name. *)
Record Externals (W : Type) : Type := {
  (* ctx.session.getLang *)
  getLang : string -> LangConfig;
  (* ../sandbox *)
  runQueued : string -> ExecRequest -> W -> Outcome RunResult * W;
  del : string -> W -> Outcome unit * W;
  (* ../checkers *)
  checkers : gmap string (CheckerArgs -> W -> Outcome CheckerResult * W);
  (* ../signals *)
  signals : gmap Z string;
  (* methods of the context *)
  runAnalysis : Context -> Executable -> CopyInFile -> W -> Outcome unit * W;
  compile : Context -> string -> string -> W -> Outcome Executable * W;
  compileLocalFile :
    Context -> string -> string -> string -> W -> Outcome Executable * W
}.
Arguments getLang {W} _ _.
Arguments runQueued {W} _ _ _ _.
Arguments del {W} _ _ _.
Arguments checkers {W} _.
Arguments signals {W} _.
Arguments runAnalysis {W} _ _ _ _ _.
Arguments compile {W} _ _ _ _ _.
Arguments compileLocalFile {W} _ _ _ _ _ _.

(** The state a computation runs in. *)
Record State (W : Type) : Type := {
  st_ctx : Context;
  st_world : W;
  st_log : list Event
}.
Arguments Build_State {W} _ _ _.
Arguments st_ctx {W} _.
Arguments st_world {W} _.
Arguments st_log {W} _.

(** ** The state-and-error monad *)

Definition M (W A : Type) : Type := State W -> Outcome A * State W.

Definition retM {W A} (a : A) : M W A := fun s => (Ok a, s).

Definition bindM {W A B} (k : A -> M W B) (m : M W A) : M W B :=
  fun s =>
    match m s with
    | (Ok a, s') => k a s'
    | (Throw e, s') => (Throw e, s')
    end.

Global Instance M_ret {W} : MRet (M W) := fun A => @retM W A.
Global Instance M_bind {W} : MBind (M W) := fun A B => @bindM W A B.

Definition throw {W A} (e : string) : M W A := fun s => (Throw e, s).

Definition get_ctx {W} : M W Context := fun s => (Ok (st_ctx s), s).

Definition modify_ctx {W} (f : Context -> Context) : M W unit :=
  fun s => (Ok tt, Build_State (f (st_ctx s)) (st_world s) (st_log s)).

(** An awaited call to a collaborator: it is logged, then it acts on the
    world. *)
Definition call {W A} (ev : Event) (f : W -> Outcome A * W) : M W A :=
  fun s =>
    let '(o, w) := f (st_world s) in
    (o, Build_State (st_ctx s) w (st_log s ++ [ev])).

(** A promise observed without propagating its rejection, as
    [Promise.allSettled] and the first half of [Promise.all] do. *)
Definition settled {W A} (m : M W A) : M W (Outcome A) :=
  fun s => let '(o, s') := m s in (Ok o, s').

Fixpoint forM {W A B} (l : list A) (f : A -> M W B) : M W (list B) :=
  match l with
  | [] => mret []
  | x :: l' => y ← f x; ys ← forM l' f; mret (y :: ys)
  end.

(** ** The judge *)

Section Judge.

Context {W : Type}.
Variable ext : Externals W.

(** [signals[code]]: the table entry, or [undefined]. *)
Definition signals_entry (code : Z) : Message :=
  match signals ext !! code with
  | Some text => MsgString text
  | None => MsgUndefined
  end.

(** [Object.values(res.fileIds)]. *)
Definition fileId_values (fileIds : gmap string string) : list string :=
  (map_to_list fileIds).*2.

(** [fileIds.stdout ? { fileId: fileIds.stdout } : { content: '' }]. *)
Definition user_output (fileIds : gmap string string) (key : string)
  : CopyInFile :=
  if truthy_string (fileIds !! key)
  then FileIdRef (default "" (fileIds !! key))
  else Content "".

(** Lines 11-24: the parameters of the sandbox run. *)
Definition exec_request (ctx : Context) (c : NormalizedCase) : ExecRequest :=
  let lang := getLang ext (ctx_lang ctx) in
  {| rq_stdin := Src (c_input c);
     rq_copyIn := exe_copyIn (ctx_execute ctx);
     rq_filename := cfg_filename (ctx_config ctx);
     rq_time := c_time c;
     rq_memory := c_memory c;
     rq_cacheStdoutAndStderr := true;
     rq_addressSpaceLimit := address_space_limit lang;
     rq_processLimit := process_limit lang |}.

(** Lines 37-47: the argument object of the checker. *)
Definition checker_args (ctx : Context) (c : NormalizedCase) (res : RunResult)
  : CheckerArgs :=
  {| ck_execute := exe_execute (ctx_checker ctx);
     ck_copyIn := default ∅ (exe_copyIn (ctx_checker ctx));
     ck_input := Src (c_input c);
     ck_output := Src (c_output c);
     ck_user_stdout := user_output (res_fileIds res) "stdout";
     ck_user_stderr := user_output (res_fileIds res) "stderr";
     ck_score := c_score c;
     ck_detail := default true (cfg_detail (ctx_config ctx));
     ck_env := <["HYDRO_TESTCASE" := pretty (c_id c)]> (ctx_env ctx) |}.

(** [checkers[checker_type](args)]: calling an entry the registry does not
    have is a TypeError. *)
Definition call_checker (checker_type : string) (args : CheckerArgs)
  : M W CheckerResult :=
  match checkers ext !! checker_type with
  | Some checker => call (EvChecker checker_type args) (checker args)
  | None => throw "TypeError: checkers[ctx.config.checker_type] is not a function"
  end.

(** Lines 50-51: the message of a runtime error with a truthy exit code. *)
Definition runtime_error_message (code : Z) (signalled : bool) : Message :=
  if bool_decide (code < 32) && signalled
  then signals_entry code
  else MsgTemplate "Your program returned {0}." [code].

(** Lines 28-52: classification of the raw run result into
    [(status, score, message)]. *)
Definition classify (c : NormalizedCase) (res : RunResult)
  : M W (Status * Z * Message) :=
  let status := res_status res in
  if bool_decide (status = STATUS_ACCEPTED) then
    if bool_decide (res_time res > c_time c) then
      mret (STATUS_TIME_LIMIT_EXCEEDED, 0, MsgString "")
    else if bool_decide (res_memory res > c_memory c * 1024) then
      mret (STATUS_MEMORY_LIMIT_EXCEEDED, 0, MsgString "")
    else
      ctx ← get_ctx;
      r ← call_checker (cfg_checker_type (ctx_config ctx))
                       (checker_args ctx c res);
      mret (chk_status r, chk_score r, chk_message r)
  else if bool_decide (status = STATUS_RUNTIME_ERROR)
          && truthy_code (res_code res) then
    match res_code res with
    | Some code =>
        mret (status, 0, runtime_error_message code (res_signalled res))
    | None => mret (status, 0, MsgString "")
    end
  else mret (status, 0, MsgString "").

(** Line 53: every deletion is started; none of their failures is
    propagated. *)
Definition cleanup (fileIds : gmap string string) : M W unit :=
  forM (fileId_values fileIds)
       (fun id => settled (call (EvDel id) (del ext id)));;
  mret tt.

(** Lines 11-53: one attempt at the case.  It gives the raw run result
    and the classified [(status, score, message)]. *)
Definition attempt (c : NormalizedCase)
  : M W (RunResult * (Status * Z * Message)) :=
  ctx ← get_ctx;
  res ← call (EvRunQueued (exe_execute (ctx_execute ctx)) (exec_request ctx c))
             (runQueued ext (exe_execute (ctx_execute ctx))
                        (exec_request ctx c));
  v ← classify c res;
  cleanup (res_fileIds res);;
  mret (res, v).

(** Line 54, without the test that a runner was passed. *)
Definition retry_eligible (ctx : Context) (c : NormalizedCase) (status : Status)
  : bool :=
  truthy_number (ctx_rerun ctx)
  && bool_decide (c_time c <= 5000)
  && bool_decide (status = STATUS_TIME_LIMIT_EXCEEDED).

(** Line 58. *)
Definition analysis_due (ctx : Context) (status : Status) : bool :=
  negb (rejudged (ctx_request ctx))
  && negb (ctx_analysis ctx)
  && bool_decide (status ∈ [STATUS_WRONG_ANSWER; STATUS_RUNTIME_ERROR]).

(** Lines 62-70: the result record. *)
Definition case_result (c : NormalizedCase) (ctxSubtask : ContextSubTask)
    (res : RunResult) (v : Status * Z * Message) : CaseResult :=
  let '(status, score, message) := v in
  {| cr_id := c_id c;
     cr_subtaskId := sub_id (subtask ctxSubtask);
     cr_status := status;
     cr_score := score;
     cr_time := res_time res;
     cr_memory := res_memory res;
     cr_message := message |}.

(** Lines 58-70: the analysis trigger, then the result. *)
Definition report (c : NormalizedCase) (ctxSubtask : ContextSubTask)
    (res : RunResult) (v : Status * Z * Message) : M W CaseResult :=
  ctx ← get_ctx;
  (if analysis_due ctx v.1.1 then
     modify_ctx (set_analysis true);;
     ctx' ← get_ctx;
     call (EvRunAnalysis ctx' (ctx_execute ctx') (Src (ctx_input ctx')))
          (runAnalysis ext ctx' (ctx_execute ctx') (Src (ctx_input ctx')))
   else mret tt);;
  mret (case_result c ctxSubtask res v).

(** [runner(ctx, ctxSubtask)]. *)
Definition call_runner (run : ContextSubTask -> M W CaseResult)
    (ctxSubtask : ContextSubTask) : M W CaseResult :=
  fun s =>
    run ctxSubtask
        (Build_State (st_ctx s) (st_world s)
                     (st_log s ++ [EvRunner ctxSubtask])).

(** Lines 54-70: retry through the runner, or report this attempt. *)
Definition retry_or_report (c : NormalizedCase) (ctxSubtask : ContextSubTask)
    (runner : option (ContextSubTask -> M W CaseResult))
    (res : RunResult) (v : Status * Z * Message) : M W CaseResult :=
  ctx ← get_ctx;
  match runner with
  | Some run =>
      if retry_eligible ctx c v.1.1 then
        modify_ctx (set_rerun (ctx_rerun ctx - 1));;
        call_runner run ctxSubtask
      else report c ctxSubtask res v
  | None => report c ctxSubtask res v
  end.

(** [judgeCase(c)(ctx, ctxSubtask, runner)]; the context is the [st_ctx]
    of the state. *)
Definition judgeCase (c : NormalizedCase) (ctxSubtask : ContextSubTask)
    (runner : option (ContextSubTask -> M W CaseResult)) : M W CaseResult :=
  '(res, v) ← attempt c;
  retry_or_report c ctxSubtask runner res v.

(** *** Runners that are case runners

    [judgeCase] takes any function as [runner].  The one the flow engine
    is said to pass is "the same callable": a closure over [judgeCase]
    for some case.  Line 56 calls the runner with two arguments, so a
    runner that is [judgeCase(c)] itself runs without one ([RunnerLast]);
    a closure that passes a further runner on is [RunnerThen]. *)
Inductive Runner : Type :=
  | RunnerLast (c : NormalizedCase)
  | RunnerThen (c : NormalizedCase) (next : Runner).

Fixpoint runner_fn (r : Runner) : ContextSubTask -> M W CaseResult :=
  match r with
  | RunnerLast c => fun ctxSubtask => judgeCase c ctxSubtask None
  | RunnerThen c next =>
      fun ctxSubtask => judgeCase c ctxSubtask (Some (runner_fn next))
  end.

Record Invocation : Type := {
  inv_case : NormalizedCase;
  inv_subtask : ContextSubTask;
  inv_runner : option Runner
}.

Definition invoke (i : Invocation) : M W CaseResult :=
  judgeCase (inv_case i) (inv_subtask i)
            (match inv_runner i with
             | Some r => Some (runner_fn r)
             | None => None
             end).

(** The invocations of one submission, one after the other on the same
    context, whatever each of them ends in. *)
Definition run_invocations (l : list Invocation)
  : M W (list (Outcome CaseResult)) :=
  forM l (fun i => settled (invoke i)).

(** *** The compile stage and the wiring *)

(** The task object [default.ts] hands to the flow engine. *)
Record Task : Type := {
  task_compile : M W unit;
  task_judgeCase :
    NormalizedCase -> ContextSubTask ->
    option (ContextSubTask -> M W CaseResult) -> M W CaseResult
}.

(** Lines 75-80.  [Promise.all] over two calls that are both started; the
    destructuring assignment happens only when both resolve.  When both
    reject, the error of the first in the array is taken. *)
Definition compile_stage : M W unit :=
  ctx ← get_ctx;
  r1 ← settled (call (EvCompile ctx (ctx_lang ctx) (ctx_code ctx))
                     (compile ext ctx (ctx_lang ctx) (ctx_code ctx)));
  r2 ← settled (call (EvCompileLocalFile ctx "checker"
                        (cfg_checker (ctx_config ctx))
                        (cfg_checker_type (ctx_config ctx)))
                     (compileLocalFile ext ctx "checker"
                        (cfg_checker (ctx_config ctx))
                        (cfg_checker_type (ctx_config ctx))));
  match r1, r2 with
  | Ok execute, Ok checker => modify_ctx (set_executables execute checker)
  | Throw e, _ => throw e
  | Ok _, Throw e => throw e
  end.

(** Lines 74-82: the task [default.ts] builds, and [judge], for any flow
    engine. *)
Definition default_task : Task :=
  {| task_compile := compile_stage; task_judgeCase := judgeCase |}.

Definition judge {R : Type} (runFlow : Task -> M W R) : M W R :=
  runFlow default_task.

(** Modelled from the spec: the flow engine [runFlow] of [../flow], whose
    source is not part of the two files.  It "sequences compile, then
    per-subtask, then per-case stages", a compile failure being fatal to
    the whole submission, and "invokes the Case Runner once per test
    case, per subtask, supplying subtask context"; the runner it passes
    is "the same callable". *)
Definition run_cases (task : Task) : M W (list (list CaseResult)) :=
  ctx ← get_ctx;
  forM (cfg_subtasks (ctx_config ctx)) (fun st =>
    forM (sub_cases st) (fun c =>
      task_judgeCase task c {| subtask := st |}
        (Some (fun ctxSubtask => task_judgeCase task c ctxSubtask None)))).

Definition runFlow (task : Task) : M W (list (list CaseResult)) :=
  task_compile task;;
  run_cases task.

(** The state after the two compilations were called, with the context
    [ctx']. *)
Definition compile_called (ctx' : Context) (s : State W) : State W :=
  let ctx := st_ctx s in
  let r1 := compile ext ctx (ctx_lang ctx) (ctx_code ctx) (st_world s) in
  let r2 := compileLocalFile ext ctx "checker" (cfg_checker (ctx_config ctx))
              (cfg_checker_type (ctx_config ctx)) r1.2 in
  Build_State ctx' r2.2
    (st_log s ++ [EvCompile ctx (ctx_lang ctx) (ctx_code ctx);
                  EvCompileLocalFile ctx "checker"
                    (cfg_checker (ctx_config ctx))
                    (cfg_checker_type (ctx_config ctx))]).

(** *** Reading the log *)

Definition is_checker_call (ev : Event) : bool :=
  match ev with EvChecker _ _ => true | _ => false end.

Definition is_analysis_call (ev : Event) : bool :=
  match ev with EvRunAnalysis _ _ _ => true | _ => false end.

Definition is_case_call (ev : Event) : bool :=
  match ev with
  | EvRunQueued _ _ | EvChecker _ _ | EvDel _ | EvRunner _ => true
  | _ => false
  end.

(** The file ids whose deletion was attempted, in order. *)
Definition deletions (evs : list Event) : list string :=
  omap (fun ev => match ev with EvDel id => Some id | _ => None end) evs.

Definition checker_calls (evs : list Event) : nat :=
  length (filter (fun ev => is_checker_call ev = true) evs).

Definition analysis_calls (evs : list Event) : nat :=
  length (filter (fun ev => is_analysis_call ev = true) evs).

(** The state after the deletions of line 53. *)
Fixpoint del_world (ids : list string) (w : W) : W :=
  match ids with
  | [] => w
  | id :: ids' => del_world ids' (del ext id w).2
  end.

Definition cleaned (ids : list string) (s : State W) : State W :=
  Build_State (st_ctx s) (del_world ids (st_world s))
              (st_log s ++ map EvDel ids).

(** *** The states along one invocation *)

(** The sandbox answers the run of case [c] from state [s] with [res],
    leaving the world in [w1]. *)
Definition sandbox_reports (c : NormalizedCase) (s : State W)
    (res : RunResult) (w1 : W) : Prop :=
  runQueued ext (exe_execute (ctx_execute (st_ctx s)))
            (exec_request (st_ctx s) c) (st_world s) = (Ok res, w1).

(** The state after the sandbox run. *)
Definition ran (c : NormalizedCase) (w1 : W) (s : State W) : State W :=
  Build_State (st_ctx s) w1
    (st_log s ++ [EvRunQueued (exe_execute (ctx_execute (st_ctx s)))
                              (exec_request (st_ctx s) c)]).

(** The state after the checker call. *)
Definition checked (c : NormalizedCase) (res : RunResult) (w2 : W)
    (s : State W) : State W :=
  Build_State (st_ctx s) w2
    (st_log s ++ [EvChecker (cfg_checker_type (ctx_config (st_ctx s)))
                            (checker_args (st_ctx s) c res)]).

(** The state the runner is called in when the retry fires: the budget
    is one less. *)
Definition handoff (ctxSubtask : ContextSubTask) (s : State W) : State W :=
  Build_State (set_rerun (ctx_rerun (st_ctx s) - 1) (st_ctx s)) (st_world s)
              (st_log s ++ [EvRunner ctxSubtask]).

(** The state after the analysis call. *)
Definition analysed (s : State W) : State W :=
  let ctx' := set_analysis true (st_ctx s) in
  Build_State ctx'
    (runAnalysis ext ctx' (ctx_execute ctx') (Src (ctx_input ctx'))
                 (st_world s)).2
    (st_log s ++ [EvRunAnalysis ctx' (ctx_execute ctx')
                                (Src (ctx_input ctx'))]).

(** The analysis capability does not throw. *)
Definition analysis_resolves : Prop :=
  forall ctx exe inp w, exists w', runAnalysis ext ctx exe inp w = (Ok tt, w').

(** [o] is the outcome of reporting the result [r]: nothing else is ever
    returned, and [r] is returned whenever the analysis does not throw. *)
Definition reports (o : Outcome CaseResult) (r : CaseResult) : Prop :=
  (forall r', o = Ok r' -> r' = r) /\ (analysis_resolves -> o = Ok r).

(** What the checker gave, as the triple line 37 destructures. *)
Definition verdict (r : CheckerResult) : Status * Z * Message :=
  (chk_status r, chk_score r, chk_message r).

(** The same collaborators with another [del]. *)
Definition with_del (del' : string -> W -> Outcome unit * W) : Externals W :=
  {| getLang := getLang ext; runQueued := runQueued ext; del := del';
     checkers := checkers ext; signals := signals ext;
     runAnalysis := runAnalysis ext; compile := compile ext;
     compileLocalFile := compileLocalFile ext |}.

End Judge.

(** Line 54 as a proposition: a runner was passed, the budget is truthy,
    the time limit is at most 5000 ms, the status is exactly
    TIME_LIMIT_EXCEEDED. *)
Definition retry_due {W} (runner : option (ContextSubTask -> M W CaseResult))
    (ctx : Context) (c : NormalizedCase) (status : Status) : Prop :=
  is_Some runner /\ ctx_rerun ctx <> 0 /\ c_time c <= 5000 /\
  status = STATUS_TIME_LIMIT_EXCEEDED.

Definition is_runner_call (ev : Event) : bool :=
  match ev with EvRunner _ => true | _ => false end.

Definition runner_calls (evs : list Event) : nat :=
  length (filter (fun ev => is_runner_call ev = true) evs).

(** The analysis is only ever called on a context whose flag is set. *)
Definition flag_set_at_call (ev : Event) : Prop :=
  match ev with
  | EvRunAnalysis this _ _ => ctx_analysis this = true
  | _ => True
  end.

(** What a computation may do with the analysis: it leaves the request
    alone and never clears the flag; it calls the analysis at most once,
    on a context whose flag is set; and it calls it only from a state
    where the request is not a rejudge and the flag is clear, setting the
    flag and returning, if it returns, WRONG_ANSWER or RUNTIME_ERROR. *)
Definition analysis_disciplined {W} (m : M W CaseResult) : Prop :=
  forall s o s',
    m s = (o, s') ->
    ctx_request (st_ctx s') = ctx_request (st_ctx s) /\
    (ctx_analysis (st_ctx s) = true -> ctx_analysis (st_ctx s') = true) /\
    exists evs,
      st_log s' = st_log s ++ evs /\
      Forall flag_set_at_call evs /\
      (analysis_calls evs = 0%nat \/
       (analysis_calls evs = 1%nat /\
        rejudged (ctx_request (st_ctx s)) = false /\
        ctx_analysis (st_ctx s) = false /\
        ctx_analysis (st_ctx s') = true /\
        forall r, o = Ok r ->
                  cr_status r = STATUS_WRONG_ANSWER \/
                  cr_status r = STATUS_RUNTIME_ERROR)).

(** One verdict is better than another when it accepts what the other
    does not: the only order on verdicts the judge relies on. *)
Definition better (a b : Status) : Prop :=
  a = STATUS_ACCEPTED /\ b <> STATUS_ACCEPTED.

(** ** A scripted sandbox

    A small world to run the judge in: the sandbox and the one registered
    checker answer from scripts, deleting the file ["locked"] fails, and
    the analysis and the two compilations fail on demand. *)
Module Script.

Record World : Type := {
  runs : list (Outcome RunResult);
  answers : list (Outcome CheckerResult);
  deleted : list string;
  analysis_fails : bool;
  compile_fails : bool;
  compile_checker_fails : bool
}.

Definition set_runs (l : list (Outcome RunResult)) (w : World) : World :=
  {| runs := l; answers := answers w; deleted := deleted w;
     analysis_fails := analysis_fails w; compile_fails := compile_fails w;
     compile_checker_fails := compile_checker_fails w |}.

Definition set_answers (l : list (Outcome CheckerResult)) (w : World) : World :=
  {| runs := runs w; answers := l; deleted := deleted w;
     analysis_fails := analysis_fails w; compile_fails := compile_fails w;
     compile_checker_fails := compile_checker_fails w |}.

Definition set_deleted (l : list string) (w : World) : World :=
  {| runs := runs w; answers := answers w; deleted := l;
     analysis_fails := analysis_fails w; compile_fails := compile_fails w;
     compile_checker_fails := compile_checker_fails w |}.

Definition sandbox (w : World) : Outcome RunResult * World :=
  match runs w with
  | r :: rest => (r, set_runs rest w)
  | [] => (Throw "sandbox unreachable", w)
  end.

Definition checker (args : CheckerArgs) (w : World)
  : Outcome CheckerResult * World :=
  match answers w with
  | r :: rest => (r, set_answers rest w)
  | [] => (Throw "checker crashed", w)
  end.

Definition delete (id : string) (w : World) : Outcome unit * World :=
  if String.eqb id "locked" then (Throw "cannot delete", w)
  else (Ok tt, set_deleted (deleted w ++ [id]) w).

(** A file store in which every deletion fails. *)
Definition delete_fails (id : string) (w : World) : Outcome unit * World :=
  (Throw "cannot delete", (delete id w).2).

Definition ext : Externals World := {|
  getLang := fun _ => {| address_space_limit := None; process_limit := None |};
  runQueued := fun _ _ => sandbox;
  del := delete;
  checkers := {[ "default" := checker ]};
  signals := {[ 11 := "Segmentation fault" ]};
  runAnalysis := fun _ _ _ w =>
    if analysis_fails w then (Throw "analysis failed", w) else (Ok tt, w);
  compile := fun _ lang _ w =>
    if compile_fails w then (Throw "compile error", w)
    else (Ok {| exe_execute := "/w/foo"; exe_copyIn := None |}, w);
  compileLocalFile := fun _ name _ _ w =>
    if compile_checker_fails w then (Throw "checker compile error", w)
    else (Ok {| exe_execute := "/w/checker"; exe_copyIn := None |}, w)
|}.

Definition world (script : list (Outcome RunResult))
    (replies : list (Outcome CheckerResult)) : World :=
  {| runs := script; answers := replies; deleted := [];
     analysis_fails := false; compile_fails := false;
     compile_checker_fails := false |}.

Definition case (time memory : Z) : NormalizedCase :=
  {| c_id := 1; c_input := "1.in"; c_output := "1.out";
     c_time := time; c_memory := memory; c_score := 100 |}.

Definition sub : ContextSubTask :=
  {| subtask := {| sub_id := 7; sub_cases := [case 1000 256] |} |}.

Definition config : Config :=
  {| cfg_filename := "foo"; cfg_checker_type := "default";
     cfg_checker := "checker.cc"; cfg_detail := None;
     cfg_subtasks := [subtask sub] |}.

Definition context (rerun : Z) (analysis rejudge : bool) : Context :=
  {| ctx_lang := "cc"; ctx_code := "int main(){}"; ctx_input := "0.in";
     ctx_execute := {| exe_execute := "/w/foo"; exe_copyIn := None |};
     ctx_checker := {| exe_execute := "/w/checker"; exe_copyIn := None |};
     ctx_config := config; ctx_env := ∅;
     ctx_rerun := rerun; ctx_analysis := analysis;
     ctx_request := {| rejudged := rejudge |} |}.

Definition state (ctx : Context) (w : World) : State World :=
  Build_State ctx w [].

Definition files : gmap string string :=
  {[ "stdout" := "f1"; "stderr" := "f2" ]}.

Definition report_of (status : Status) (code : option Z) (signalled : bool)
    (time memory : Z) : RunResult :=
  {| res_status := status; res_code := code; res_signalled := signalled;
     res_time := time; res_memory := memory; res_fileIds := files |}.

(** Sandbox reports: accepted after 900 ms or after 1200 ms with 100000
    bytes, a timeout, and a crash. *)
Definition fast : RunResult := report_of STATUS_ACCEPTED None false 900 100000.
Definition slow : RunResult := report_of STATUS_ACCEPTED None false 1200 100000.
Definition timed_out : RunResult :=
  report_of STATUS_TIME_LIMIT_EXCEEDED None false 1001 100000.
Definition crashed (code : option Z) (signalled : bool) : RunResult :=
  report_of STATUS_RUNTIME_ERROR code signalled 12 100000.

Definition answer (status : Status) (score : Z) : CheckerResult :=
  {| chk_status := status; chk_score := score; chk_message := MsgString "" |}.

(** The runner the flow engine passes: the case runner of the same case. *)
Definition retry (c : NormalizedCase)
  : option (ContextSubTask -> M World CaseResult) :=
  Some (runner_fn ext (RunnerLast c)).

End Script.

(** ** Counting attempts and retries *)

Definition is_run_call (ev : Event) : bool :=
  match ev with EvRunQueued _ _ => true | _ => false end.

(** The sandbox runs among the calls. *)
Definition sandbox_runs (evs : list Event) : nat :=
  length (filter (fun ev => is_run_call ev = true) evs).

(** How many case runners a runner nests: [judgeCase(c)] itself is 1. *)
Fixpoint depth (r : Runner) : nat :=
  match r with
  | RunnerLast _ => 1
  | RunnerThen _ next => S (depth next)
  end.

Definition runner_depth (r : option Runner) : nat :=
  match r with
  | Some r' => depth r'
  | None => 0
  end.

(** Two contexts that differ at most in the budget and the analysis flag,
    the two fields [judgeCase] assigns. *)
Definition same_inputs (a b : Context) : Prop :=
  ctx_lang a = ctx_lang b /\ ctx_code a = ctx_code b /\
  ctx_input a = ctx_input b /\ ctx_execute a = ctx_execute b /\
  ctx_checker a = ctx_checker b /\ ctx_config a = ctx_config b /\
  ctx_env a = ctx_env b /\ ctx_request a = ctx_request b.

(** What a computation that judges a case does, counted on its log: one
    sandbox run more than it has retries, at most [d] retries, no more
    checker calls than sandbox runs, a budget that went down by one per
    retry, a context otherwise as it was; and a result that is ACCEPTED
    or has a score other than 0 only after a checker call. *)
Definition accounted {W} (d : nat) (m : M W CaseResult) : Prop :=
  forall s o s',
    m s = (o, s') ->
    same_inputs (st_ctx s') (st_ctx s) /\
    exists evs,
      st_log s' = st_log s ++ evs /\
      sandbox_runs evs = S (runner_calls evs) /\
      (runner_calls evs <= d)%nat /\
      (checker_calls evs <= sandbox_runs evs)%nat /\
      ctx_rerun (st_ctx s') = ctx_rerun (st_ctx s) - Z.of_nat (runner_calls evs) /\
      (0 <= ctx_rerun (st_ctx s) -> 0 <= ctx_rerun (st_ctx s')) /\
      (forall r, o = Ok r ->
         cr_status r = STATUS_ACCEPTED \/ cr_score r <> 0 ->
         (1 <= checker_calls evs)%nat).

(** The analysis flag changes exactly when the analysis is called, and a
    result that is WRONG_ANSWER or RUNTIME_ERROR on a request that is not
    a rejudge leaves the flag set. *)
Definition flag_tracked {W} (m : M W CaseResult) : Prop :=
  forall s o s',
    m s = (o, s') ->
    ctx_request (st_ctx s') = ctx_request (st_ctx s) /\
    (exists evs,
       st_log s' = st_log s ++ evs /\
       ((analysis_calls evs = 0%nat /\
         ctx_analysis (st_ctx s') = ctx_analysis (st_ctx s)) \/
        (analysis_calls evs = 1%nat /\
         ctx_analysis (st_ctx s) = false /\
         ctx_analysis (st_ctx s') = true))) /\
    (forall r, o = Ok r ->
       cr_status r = STATUS_WRONG_ANSWER \/
       cr_status r = STATUS_RUNTIME_ERROR ->
       rejudged (ctx_request (st_ctx s)) = false ->
       ctx_analysis (st_ctx s') = true).



(** ** More worlds to run in *)

(** A context whose checker type is not in the registry, and a scripted
    world whose analysis fails. *)
Module Faults.

Definition unknown_checker : Context :=
  {| ctx_lang := "cc"; ctx_code := "int main(){}"; ctx_input := "0.in";
     ctx_execute := {| exe_execute := "/w/foo"; exe_copyIn := None |};
     ctx_checker := {| exe_execute := "/w/checker"; exe_copyIn := None |};
     ctx_config :=
       {| cfg_filename := "foo"; cfg_checker_type := "nonesuch";
          cfg_checker := "checker.cc"; cfg_detail := None;
          cfg_subtasks := [] |};
     ctx_env := ∅; ctx_rerun := 2; ctx_analysis := false;
     ctx_request := {| rejudged := false |} |}.

Definition analysis_down (script : list (Outcome RunResult))
    (replies : list (Outcome CheckerResult)) : Script.World :=
  {| Script.runs := script; Script.answers := replies;
     Script.deleted := []; Script.analysis_fails := true;
     Script.compile_fails := false; Script.compile_checker_fails := false |}.

End Faults.

(** A world with no state, whose collaborators never throw: every run
    times out, the checker rejects. *)
Module Steady.

Definition checker (args : CheckerArgs) (w : unit)
  : Outcome CheckerResult * unit :=
  (Ok (Script.answer STATUS_WRONG_ANSWER 0), w).

Definition ext : Externals unit := {|
  getLang := fun _ => {| address_space_limit := None; process_limit := None |};
  runQueued := fun _ _ w => (Ok Script.timed_out, w);
  del := fun _ w => (Ok tt, w);
  checkers := {[ "default" := checker ]};
  signals := ∅;
  runAnalysis := fun _ _ _ w => (Ok tt, w);
  compile := fun _ _ _ w =>
    (Ok {| exe_execute := "/w/foo"; exe_copyIn := None |}, w);
  compileLocalFile := fun _ _ _ _ w =>
    (Ok {| exe_execute := "/w/checker"; exe_copyIn := None |}, w)
|}.

End Steady.

(** * Properties *)

Section Facts.

Context {W : Type}.
Variable ext : Externals W.

(** ** How the pieces run *)

Lemma bind_run {A B} (m : M W A) (k : A -> M W B) (s : State W) :
  (m ≫= k) s =
  match m s with
  | (Ok a, s') => k a s'
  | (Throw e, s') => (Throw e, s')
  end.
Proof. reflexivity. Qed.

Lemma forM_del_run (ids : list string) (s : State W) :
  exists outs,
    forM ids (fun id => settled (call (EvDel id) (del ext id))) s
    = (Ok outs, cleaned ext ids s).
Proof.
  revert s. induction ids as [|id ids IH]; intros s.
  - exists []. unfold cleaned. cbn. rewrite app_nil_r. by destruct s.
  - cbn [forM]. rewrite bind_run. unfold settled at 1, call at 1.
    destruct (del ext id (st_world s)) as [o w] eqn:Hdel.
    rewrite bind_run.
    destruct (IH (Build_State (st_ctx s) w (st_log s ++ [EvDel id])))
      as [outs ->].
    exists (o :: outs). unfold cleaned. cbn. rewrite Hdel. cbn.
    by rewrite <- app_assoc.
Qed.

Lemma cleanup_run (fileIds : gmap string string) (s : State W) :
  cleanup ext fileIds s = (Ok tt, cleaned ext (fileId_values fileIds) s).
Proof.
  unfold cleanup. rewrite bind_run.
  by destruct (forM_del_run (fileId_values fileIds) s) as [outs ->].
Qed.

Lemma attempt_run c s res w1 :
  sandbox_reports ext c s res w1 ->
  attempt ext c s =
  match classify ext c res (ran ext c w1 s) with
  | (Ok v, s1) => (Ok (res, v), cleaned ext (fileId_values (res_fileIds res)) s1)
  | (Throw e, s1) => (Throw e, s1)
  end.
Proof.
  unfold sandbox_reports. intros Hrun.
  unfold attempt. rewrite bind_run. cbn [get_ctx].
  rewrite bind_run. unfold call at 1. rewrite Hrun.
  rewrite bind_run. fold (ran ext c w1 s).
  destruct (classify ext c res (ran ext c w1 s)) as [[v|e] s1]; [|done].
  rewrite bind_run, cleanup_run. done.
Qed.

Lemma attempt_sandbox_throws c s e w1 :
  runQueued ext (exe_execute (ctx_execute (st_ctx s)))
            (exec_request ext (st_ctx s) c) (st_world s) = (Throw e, w1) ->
  attempt ext c s = (Throw e, ran ext c w1 s).
Proof.
  intros Hrun. unfold attempt. rewrite bind_run. cbn [get_ctx].
  rewrite bind_run. unfold call at 1. by rewrite Hrun.
Qed.

(** ** Classification (lines 28-52) *)

Lemma classify_time_limit c res (s : State W) :
  res_status res = STATUS_ACCEPTED ->
  res_time res > c_time c ->
  classify ext c res s = (Ok (STATUS_TIME_LIMIT_EXCEEDED, 0, MsgString ""), s).
Proof.
  intros Hst Ht. unfold classify. rewrite Hst.
  rewrite bool_decide_eq_true_2 by done.
  by rewrite bool_decide_eq_true_2 by done.
Qed.

Lemma classify_memory_limit c res (s : State W) :
  res_status res = STATUS_ACCEPTED ->
  ~ res_time res > c_time c ->
  res_memory res > c_memory c * 1024 ->
  classify ext c res s
  = (Ok (STATUS_MEMORY_LIMIT_EXCEEDED, 0, MsgString ""), s).
Proof.
  intros Hst Ht Hm. unfold classify. rewrite Hst.
  rewrite bool_decide_eq_true_2 by done.
  rewrite bool_decide_eq_false_2 by done.
  by rewrite bool_decide_eq_true_2 by done.
Qed.

Lemma classify_within_limits c res (s : State W) :
  res_status res = STATUS_ACCEPTED ->
  ~ res_time res > c_time c ->
  ~ res_memory res > c_memory c * 1024 ->
  classify ext c res s =
  match call_checker ext (cfg_checker_type (ctx_config (st_ctx s)))
                     (checker_args (st_ctx s) c res) s with
  | (Ok r, s') => (Ok (verdict r), s')
  | (Throw e, s') => (Throw e, s')
  end.
Proof.
  intros Hst Ht Hm. unfold classify. rewrite Hst.
  rewrite bool_decide_eq_true_2 by done.
  rewrite !bool_decide_eq_false_2 by done.
  rewrite bind_run. cbn [get_ctx]. rewrite bind_run.
  by destruct (call_checker _ _ _ s) as [[r|e] s'].
Qed.

Lemma classify_checked c res (s : State W) chk r w2 :
  res_status res = STATUS_ACCEPTED ->
  ~ res_time res > c_time c ->
  ~ res_memory res > c_memory c * 1024 ->
  checkers ext !! cfg_checker_type (ctx_config (st_ctx s)) = Some chk ->
  chk (checker_args (st_ctx s) c res) (st_world s) = (Ok r, w2) ->
  classify ext c res s = (Ok (verdict r), checked c res w2 s).
Proof.
  intros Hst Ht Hm Hreg Hchk.
  rewrite classify_within_limits by done.
  unfold call_checker. rewrite Hreg. unfold call. by rewrite Hchk.
Qed.

Lemma classify_checker_throws c res (s : State W) chk e w2 :
  res_status res = STATUS_ACCEPTED ->
  ~ res_time res > c_time c ->
  ~ res_memory res > c_memory c * 1024 ->
  checkers ext !! cfg_checker_type (ctx_config (st_ctx s)) = Some chk ->
  chk (checker_args (st_ctx s) c res) (st_world s) = (Throw e, w2) ->
  classify ext c res s = (Throw e, checked c res w2 s).
Proof.
  intros Hst Ht Hm Hreg Hchk.
  rewrite classify_within_limits by done.
  unfold call_checker. rewrite Hreg. unfold call. by rewrite Hchk.
Qed.

Lemma classify_runtime_error c res (s : State W) code :
  res_status res = STATUS_RUNTIME_ERROR ->
  res_code res = Some code ->
  code <> 0 ->
  classify ext c res s
  = (Ok (STATUS_RUNTIME_ERROR, 0,
         runtime_error_message ext code (res_signalled res)), s).
Proof.
  intros Hst Hcode Hnz. unfold classify. rewrite Hst, Hcode.
  rewrite bool_decide_eq_false_2 by done.
  rewrite bool_decide_eq_true_2 by done.
  cbn. unfold truthy_number.
  by destruct (Z.eqb_spec code 0).
Qed.

Lemma classify_pass_through c res (s : State W) :
  res_status res <> STATUS_ACCEPTED ->
  ~ (res_status res = STATUS_RUNTIME_ERROR /\ truthy_code (res_code res) = true) ->
  classify ext c res s = (Ok (res_status res, 0, MsgString ""), s).
Proof.
  intros Hst Hre. unfold classify.
  rewrite bool_decide_eq_false_2 by done.
  destruct (bool_decide (res_status res = STATUS_RUNTIME_ERROR)) eqn:Hb; [|done].
  apply bool_decide_eq_true_1 in Hb.
  destruct (truthy_code (res_code res)) eqn:Hc; [|done].
  exfalso. by apply Hre.
Qed.

(** Classification never touches the context, and only ever adds a
    checker call to the log. *)
Lemma classify_frame c res (s : State W) o s' :
  classify ext c res s = (o, s') ->
  st_ctx s' = st_ctx s /\
  (st_log s' = st_log s \/
   exists ty args, st_log s' = st_log s ++ [EvChecker ty args]).
Proof.
  unfold classify.
  repeat case_bool_decide; cbn;
    try (intros [= <- <-]; by auto).
  all: try (destruct (truthy_code (res_code res)), (res_code res);
            intros [= <- <-]; by auto).
  rewrite bind_run. cbn [get_ctx]. rewrite bind_run.
  unfold call_checker, throw, call.
  destruct (checkers ext !! _) as [chk|].
  - destruct (chk _ _) as [[r|e] w2]; intros [= <- <-]; cbn; eauto.
  - intros [= <- <-]. auto.
Qed.

(** A status other than ACCEPTED is never changed by classification. *)
Lemma classify_keeps_failure c res (s : State W) status score message s' :
  classify ext c res s = (Ok (status, score, message), s') ->
  res_status res <> STATUS_ACCEPTED ->
  status = res_status res /\ score = 0 /\ s' = s.
Proof.
  unfold classify. intros H Hst.
  rewrite bool_decide_eq_false_2 in H by done.
  destruct (_ && _), (res_code res); by inversion H.
Qed.

(** ** Retry and report (lines 54-70) *)

Lemma report_quiet c sub res v (s : State W) :
  analysis_due (st_ctx s) v.1.1 = false ->
  report ext c sub res v s = (Ok (case_result c sub res v), s).
Proof.
  intros Hdue. unfold report. rewrite bind_run. cbn [get_ctx].
  rewrite Hdue. by rewrite bind_run.
Qed.

Lemma report_analysis c sub res v (s : State W) :
  analysis_due (st_ctx s) v.1.1 = true ->
  report ext c sub res v s =
  match (runAnalysis ext (set_analysis true (st_ctx s))
           (ctx_execute (st_ctx s)) (Src (ctx_input (st_ctx s)))
           (st_world s)).1 with
  | Ok _ => (Ok (case_result c sub res v), analysed ext s)
  | Throw e => (Throw e, analysed ext s)
  end.
Proof.
  intros Hdue. unfold report. rewrite bind_run. cbn [get_ctx].
  rewrite Hdue. rewrite !bind_run. cbn [modify_ctx get_ctx st_ctx st_world st_log].
  rewrite bind_run. unfold call, analysed. cbn.
  by destruct (runAnalysis _ _ _ _ _) as [[[]|e] w].
Qed.

Lemma retry_fires c sub run res v (s : State W) :
  retry_eligible (st_ctx s) c v.1.1 = true ->
  retry_or_report ext c sub (Some run) res v s = run sub (handoff sub s).
Proof.
  intros Hel. unfold retry_or_report. rewrite bind_run. cbn [get_ctx].
  rewrite Hel. by rewrite bind_run.
Qed.

Lemma retry_skipped c sub runner res v (s : State W) :
  runner = None \/ retry_eligible (st_ctx s) c v.1.1 = false ->
  retry_or_report ext c sub runner res v s = report ext c sub res v s.
Proof.
  intros Hno. unfold retry_or_report. rewrite bind_run. cbn [get_ctx].
  destruct runner as [run|]; [|done].
  destruct Hno as [Hnone | ->]; done.
Qed.

Lemma judgeCase_run c sub runner (s : State W) :
  judgeCase ext c sub runner s =
  match attempt ext c s with
  | (Ok (res, v), s2) => retry_or_report ext c sub runner res v s2
  | (Throw e, s2) => (Throw e, s2)
  end.
Proof.
  unfold judgeCase. rewrite bind_run.
  by destruct (attempt ext c s) as [[[res v]|e] s2].
Qed.

(** The retry is for TIME_LIMIT_EXCEEDED only; the analysis is for
    WRONG_ANSWER and RUNTIME_ERROR only. *)
Lemma retry_eligible_status ctx c status :
  retry_eligible ctx c status = true -> status = STATUS_TIME_LIMIT_EXCEEDED.
Proof.
  unfold retry_eligible. rewrite !andb_true_iff.
  intros [_ H]. by apply bool_decide_eq_true_1 in H.
Qed.

Lemma retry_eligible_iff ctx c status :
  retry_eligible ctx c status = true <->
  ctx_rerun ctx <> 0 /\ c_time c <= 5000 /\
  status = STATUS_TIME_LIMIT_EXCEEDED.
Proof.
  unfold retry_eligible, truthy_number.
  rewrite !andb_true_iff, !bool_decide_eq_true, negb_true_iff, Z.eqb_neq.
  tauto.
Qed.

Lemma analysis_due_iff ctx status :
  analysis_due ctx status = true <->
  rejudged (ctx_request ctx) = false /\ ctx_analysis ctx = false /\
  (status = STATUS_WRONG_ANSWER \/ status = STATUS_RUNTIME_ERROR).
Proof.
  unfold analysis_due.
  rewrite !andb_true_iff, !negb_true_iff, bool_decide_eq_true.
  rewrite !elem_of_cons, elem_of_nil. tauto.
Qed.

(** ** Reading the log *)

Lemma checker_calls_app a b :
  checker_calls (a ++ b) = (checker_calls a + checker_calls b)%nat.
Proof. unfold checker_calls. by rewrite filter_app, length_app. Qed.

Lemma analysis_calls_app a b :
  analysis_calls (a ++ b) = (analysis_calls a + analysis_calls b)%nat.
Proof. unfold analysis_calls. by rewrite filter_app, length_app. Qed.

Lemma runner_calls_app a b :
  runner_calls (a ++ b) = (runner_calls a + runner_calls b)%nat.
Proof. unfold runner_calls. by rewrite filter_app, length_app. Qed.

Lemma deletions_app a b : deletions (a ++ b) = deletions a ++ deletions b.
Proof. unfold deletions. apply omap_app. Qed.

Lemma deletions_dels ids : deletions (map EvDel ids) = ids.
Proof. induction ids as [|id ids IH]; [done|]. cbn. by f_equal. Qed.

Lemma checker_calls_dels ids : checker_calls (map EvDel ids) = 0%nat.
Proof. by induction ids. Qed.

Lemma analysis_calls_dels ids : analysis_calls (map EvDel ids) = 0%nat.
Proof. by induction ids. Qed.

Lemma runner_calls_dels ids : runner_calls (map EvDel ids) = 0%nat.
Proof. by induction ids. Qed.

Lemma flag_set_dels ids : Forall flag_set_at_call (map EvDel ids).
Proof. induction ids; by constructor. Qed.

(** ** What one attempt does to the state *)

Lemma attempt_cases c (s : State W) o s2 :
  attempt ext c s = (o, s2) ->
  (exists e w1,
      runQueued ext (exe_execute (ctx_execute (st_ctx s)))
                (exec_request ext (st_ctx s) c) (st_world s) = (Throw e, w1) /\
      o = Throw e /\ s2 = ran ext c w1 s) \/
  (exists res w1 s1,
      sandbox_reports ext c s res w1 /\
      ((exists v, classify ext c res (ran ext c w1 s) = (Ok v, s1) /\
                  o = Ok (res, v) /\
                  s2 = cleaned ext (fileId_values (res_fileIds res)) s1) \/
       (exists e, classify ext c res (ran ext c w1 s) = (Throw e, s1) /\
                  o = Throw e /\ s2 = s1))).
Proof.
  intros Hat.
  destruct (runQueued ext (exe_execute (ctx_execute (st_ctx s)))
              (exec_request ext (st_ctx s) c) (st_world s))
    as [[res|e] w1] eqn:Hrun.
  - right. exists res, w1.
    rewrite (attempt_run _ _ _ _ Hrun) in Hat.
    destruct (classify ext c res (ran ext c w1 s)) as [[v|e] s1] eqn:Hcl;
      injection Hat as <- <-; exists s1; (split; [done|]);
      [left|right]; eauto.
  - left. rewrite (attempt_sandbox_throws _ _ _ _ Hrun) in Hat.
    injection Hat as <- <-. eauto.
Qed.

(** An attempt leaves the context alone and calls neither the runner nor
    the analysis; it calls the checker at most once. *)
Lemma attempt_frame c (s : State W) o s2 :
  attempt ext c s = (o, s2) ->
  st_ctx s2 = st_ctx s /\
  exists evs, st_log s2 = st_log s ++ evs /\
    analysis_calls evs = 0%nat /\ runner_calls evs = 0%nat /\
    (checker_calls evs <= 1)%nat /\ Forall flag_set_at_call evs.
Proof.
  intros Hat. apply attempt_cases in Hat.
  destruct Hat as [(e & w1 & _ & _ & ->)|(res & w1 & s1 & _ & Hcl)].
  { split; [done|]. eexists. split; [done|]. cbn.
    repeat split; auto. by repeat constructor. }
  assert (Hfr : st_ctx s1 = st_ctx s /\
    exists evs, st_log s1 = st_log s ++ evs /\
      analysis_calls evs = 0%nat /\ runner_calls evs = 0%nat /\
      (checker_calls evs <= 1)%nat /\ Forall flag_set_at_call evs).
  { assert (exists o', classify ext c res (ran ext c w1 s) = (o', s1))
      as [o' Hcl'].
    { destruct Hcl as [(v & -> & _)|(e & -> & _)]; eauto. }
    apply classify_frame in Hcl'. destruct Hcl' as [Hctx Hlog].
    split; [done|].
    destruct Hlog as [->|(ty & args & ->)]; cbn;
      eexists; (split; [try rewrite <- app_assoc; done|]); cbn;
      repeat split; auto; by repeat constructor. }
  destruct Hfr as (Hctx & evs & Hlog & Ha & Hr & Hc & Hf).
  destruct Hcl as [(v & _ & _ & ->)|(e & _ & _ & ->)].
  - split; [done|]. unfold cleaned. cbn. rewrite Hlog, <- app_assoc.
    eexists. split; [done|].
    rewrite analysis_calls_app, runner_calls_app, checker_calls_app.
    rewrite analysis_calls_dels, runner_calls_dels, checker_calls_dels.
    repeat split; try lia.
    apply Forall_app. split; [done|]. apply flag_set_dels.
  - split; [done|]. eauto 10.
Qed.

(** ** What reporting does to the state *)

Lemma report_cases c sub res v (s : State W) o s' :
  report ext c sub res v s = (o, s') ->
  (analysis_due (st_ctx s) v.1.1 = false /\
   o = Ok (case_result c sub res v) /\ s' = s) \/
  (analysis_due (st_ctx s) v.1.1 = true /\ s' = analysed ext s /\
   (o = Ok (case_result c sub res v) \/
    exists e, o = Throw e /\
      (runAnalysis ext (set_analysis true (st_ctx s))
         (ctx_execute (st_ctx s)) (Src (ctx_input (st_ctx s)))
         (st_world s)).1 = Throw e)).
Proof.
  intros Hrep. destruct (analysis_due (st_ctx s) v.1.1) eqn:Hdue.
  - rewrite report_analysis in Hrep by done. right. split; [done|].
    destruct (runAnalysis _ _ _ _ _).1 as [[]|e] eqn:Hran;
      injection Hrep as <- <-; eauto.
  - rewrite report_quiet in Hrep by done. injection Hrep as <- <-. by left.
Qed.

Lemma report_reports c sub res v (s : State W) o s' :
  report ext c sub res v s = (o, s') ->
  reports ext o (case_result c sub res v).
Proof.
  intros H. apply report_cases in H.
  destruct H as [(_ & -> & _)|(_ & _ & [->|(e & -> & He)])].
  - split; [by intros r' [= <-]|done].
  - split; [by intros r' [= <-]|done].
  - split; [done|]. intros Hres.
    destruct (Hres (set_analysis true (st_ctx s)) (ctx_execute (st_ctx s))
                   (Src (ctx_input (st_ctx s))) (st_world s)) as [w' Hw].
    cbn in He. rewrite Hw in He. done.
Qed.

Lemma retry_due_eligible (runner : option (ContextSubTask -> M W CaseResult))
    ctx c status :
  retry_due runner ctx c status <->
  is_Some runner /\ retry_eligible ctx c status = true.
Proof. unfold retry_due. rewrite retry_eligible_iff. tauto. Qed.

Lemma retry_due_dec (runner : option (ContextSubTask -> M W CaseResult))
    ctx c status :
  retry_due runner ctx c status \/ ~ retry_due runner ctx c status.
Proof.
  rewrite retry_due_eligible.
  destruct runner as [run|], (retry_eligible ctx c status);
    first [ by left; eauto | right; intros [[? ?] ?]; done ].
Qed.

Lemma retry_not_due c sub runner res v (s : State W) :
  ~ retry_due runner (st_ctx s) c v.1.1 ->
  retry_or_report ext c sub runner res v s = report ext c sub res v s.
Proof.
  intros Hnot. apply retry_skipped.
  destruct runner as [run|]; [|by left]. right.
  destruct (retry_eligible (st_ctx s) c v.1.1) eqn:Hel; [|done].
  exfalso. apply Hnot. apply retry_due_eligible. eauto.
Qed.

Lemma retry_is_due c sub runner res v (s : State W) :
  retry_due runner (st_ctx s) c v.1.1 ->
  exists run, runner = Some run /\
    retry_or_report ext c sub runner res v s = run sub (handoff sub s).
Proof.
  intros Hdue. apply retry_due_eligible in Hdue.
  destruct Hdue as [[run ->] Hel]. exists run. split; [done|].
  by apply retry_fires.
Qed.

Lemma analysis_not_due_limit ctx status :
  status = STATUS_TIME_LIMIT_EXCEEDED \/
  status = STATUS_MEMORY_LIMIT_EXCEEDED ->
  analysis_due ctx status = false.
Proof.
  intros Hst. destruct (analysis_due ctx status) eqn:Hdue; [|done].
  apply analysis_due_iff in Hdue.
  destruct Hdue as (_ & _ & [->| ->]), Hst; done.
Qed.

(** ** Time and memory limits *)

(** C1, as amended.  A run the sandbox reports as ACCEPTED with
    [time > c.time] is classified TIME_LIMIT_EXCEEDED with score 0, and
    the attempt calls no checker.  [judgeCase] returns exactly that result
    unless the retry of line 54 is due; when it is due, [judgeCase]
    returns whatever the runner returns. *)
Theorem judgeCase_time_limit c sub runner (s : State W) res w1 :
  sandbox_reports ext c s res w1 ->
  res_status res = STATUS_ACCEPTED ->
  res_time res > c_time c ->
  exists s2 evs,
    attempt ext c s
    = (Ok (res, (STATUS_TIME_LIMIT_EXCEEDED, 0, MsgString "")), s2) /\
    st_log s2 = st_log s ++ evs /\
    checker_calls evs = 0%nat /\
    (~ retry_due runner (st_ctx s) c STATUS_TIME_LIMIT_EXCEEDED ->
     exists r,
       judgeCase ext c sub runner s = (Ok r, s2) /\
       cr_status r = STATUS_TIME_LIMIT_EXCEEDED /\ cr_score r = 0) /\
    (retry_due runner (st_ctx s) c STATUS_TIME_LIMIT_EXCEEDED ->
     exists run,
       runner = Some run /\
       judgeCase ext c sub runner s = run sub (handoff sub s2)).
Proof.
  intros Hrun Hst Ht.
  pose proof (attempt_run _ _ _ _ Hrun) as Hat.
  rewrite classify_time_limit in Hat by done.
  eexists _, _. split; [exact Hat|].
  split; [unfold cleaned, ran; cbn; by rewrite <- app_assoc|].
  split.
  { rewrite checker_calls_app, checker_calls_dels. done. }
  rewrite judgeCase_run, Hat. split.
  - intros Hnot. eexists. rewrite retry_not_due by done.
    rewrite report_quiet by (by apply analysis_not_due_limit; left).
    done.
  - intros Hdue. by apply retry_is_due.
Qed.

(** C2.  A run the sandbox reports as ACCEPTED, within the time limit but
    with [memory > c.memory * 1024], makes [judgeCase] return
    MEMORY_LIMIT_EXCEEDED, whatever runner was passed; no checker is
    called on the way. *)
Theorem judgeCase_memory_limit c sub runner (s : State W) res w1 :
  sandbox_reports ext c s res w1 ->
  res_status res = STATUS_ACCEPTED ->
  ~ res_time res > c_time c ->
  res_memory res > c_memory c * 1024 ->
  exists r s' evs,
    judgeCase ext c sub runner s = (Ok r, s') /\
    cr_status r = STATUS_MEMORY_LIMIT_EXCEEDED /\
    st_log s' = st_log s ++ evs /\
    checker_calls evs = 0%nat.
Proof.
  intros Hrun Hst Ht Hm.
  rewrite judgeCase_run, (attempt_run _ _ _ _ Hrun).
  rewrite classify_memory_limit by done.
  rewrite retry_not_due.
  - rewrite report_quiet by (by apply analysis_not_due_limit; right).
    eexists _, _, _. split; [done|]. split; [done|].
    unfold cleaned, ran. cbn. rewrite <- app_assoc. split; [done|].
    rewrite checker_calls_app, checker_calls_dels. done.
  - intros (_ & _ & _ & Heq). done.
Qed.

(** Reporting changes neither the budget nor the request; it adds at
    most the analysis call to the log. *)
Lemma report_frame c sub res v (s : State W) o s' :
  report ext c sub res v s = (o, s') ->
  ctx_rerun (st_ctx s') = ctx_rerun (st_ctx s) /\
  exists evs, st_log s' = st_log s ++ evs /\
    checker_calls evs = 0%nat /\ runner_calls evs = 0%nat /\
    deletions evs = [].
Proof.
  intros H. apply report_cases in H.
  destruct H as [(_ & _ & ->)|(_ & -> & _)].
  - split; [done|]. exists []. by rewrite app_nil_r.
  - split; [done|]. eexists. split; [done|]. done.
Qed.

(** ** The checker *)

(** C3, as amended.  A run the sandbox reports as ACCEPTED within both
    limits has the registered checker called exactly once by the attempt,
    and the attempt's status, score and message are exactly what the
    checker returned.  [judgeCase] returns a result that carries them
    unless the retry of line 54 is due, which needs the checker's status
    to be TIME_LIMIT_EXCEEDED; when it is due, [judgeCase] returns
    whatever the runner returns. *)
Theorem judgeCase_checked c sub runner (s : State W) res w1 chk r w2 :
  sandbox_reports ext c s res w1 ->
  res_status res = STATUS_ACCEPTED ->
  ~ res_time res > c_time c ->
  ~ res_memory res > c_memory c * 1024 ->
  checkers ext !! cfg_checker_type (ctx_config (st_ctx s)) = Some chk ->
  chk (checker_args (st_ctx s) c res) w1 = (Ok r, w2) ->
  exists s2 evs,
    attempt ext c s = (Ok (res, verdict r), s2) /\
    st_log s2 = st_log s ++ evs /\
    checker_calls evs = 1%nat /\
    (~ retry_due runner (st_ctx s) c (chk_status r) ->
     exists o s' evs' cr,
       judgeCase ext c sub runner s = (o, s') /\
       st_log s' = st_log s ++ evs' /\
       checker_calls evs' = 1%nat /\
       reports ext o cr /\
       cr_status cr = chk_status r /\
       cr_score cr = chk_score r /\
       cr_message cr = chk_message r) /\
    (retry_due runner (st_ctx s) c (chk_status r) ->
     exists run,
       runner = Some run /\
       judgeCase ext c sub runner s = run sub (handoff sub s2)).
Proof.
  intros Hrun Hst Ht Hm Hreg Hchk.
  pose proof (attempt_run _ _ _ _ Hrun) as Hat.
  rewrite (classify_checked _ _ _ chk r w2) in Hat by done.
  assert (Hlog : forall ids,
    st_log (cleaned ext ids (checked c res w2 (ran ext c w1 s)))
    = st_log s ++ EvRunQueued (exe_execute (ctx_execute (st_ctx s)))
                              (exec_request ext (st_ctx s) c)
                  :: EvChecker (cfg_checker_type (ctx_config (st_ctx s)))
                               (checker_args (st_ctx s) c res)
                  :: map EvDel ids).
  { intros ids. unfold cleaned, checked, ran. cbn. by rewrite <- !app_assoc. }
  eexists _, _. split; [exact Hat|]. split; [apply Hlog|].
  split.
  { change (?a :: ?b :: ?l) with ([a; b] ++ l).
    by rewrite checker_calls_app, checker_calls_dels. }
  rewrite judgeCase_run, Hat. split.
  - intros Hnot. rewrite retry_not_due by done.
    destruct (report ext c sub res (verdict r) _) as [o s'] eqn:Hrep.
    pose proof (report_reports _ _ _ _ _ _ _ Hrep) as Hreports.
    apply report_frame in Hrep.
    destruct Hrep as (_ & evs' & Hlog' & Hck & _).
    eexists o, s', _, _. split; [done|].
    split; [rewrite Hlog', Hlog; by rewrite <- app_assoc|].
    split; [|by split].
    change (?a :: ?b :: ?l) with ([a; b] ++ l).
    rewrite !checker_calls_app, checker_calls_dels, Hck. done.
  - intros Hdue. by apply retry_is_due.
Qed.

(** When the checker throws, so does [judgeCase], at once: line 53 is not
    reached and nothing is deleted. *)
Lemma judgeCase_checker_throws c sub runner (s : State W) res w1 chk e w2 :
  sandbox_reports ext c s res w1 ->
  res_status res = STATUS_ACCEPTED ->
  ~ res_time res > c_time c ->
  ~ res_memory res > c_memory c * 1024 ->
  checkers ext !! cfg_checker_type (ctx_config (st_ctx s)) = Some chk ->
  chk (checker_args (st_ctx s) c res) w1 = (Throw e, w2) ->
  exists s' evs,
    judgeCase ext c sub runner s = (Throw e, s') /\
    st_log s' = st_log s ++ evs /\
    deletions evs = [].
Proof.
  intros Hrun Hst Ht Hm Hreg Hchk.
  rewrite judgeCase_run, (attempt_run _ _ _ _ Hrun).
  rewrite (classify_checker_throws _ _ _ chk e w2) by done.
  eexists _, _. split; [done|].
  unfold checked, ran. cbn. rewrite <- app_assoc. by split.
Qed.

(** ** The retry *)

(** C4, as amended.  Once an attempt has completed, the retry fires if
    and only if a runner was passed, the budget is not zero, the time
    limit is at most 5000 ms and the classified status is exactly
    TIME_LIMIT_EXCEEDED.  When it fires the runner is called with the
    budget one less and its outcome is the outcome of [judgeCase]; when
    it does not, the budget is as it was, no runner is called, and the
    attempt's own result is reported.  For a budget that is not negative,
    not zero is greater than zero. *)
Theorem judgeCase_retry c sub runner (s : State W) res status score message s2 :
  attempt ext c s = (Ok (res, (status, score, message)), s2) ->
  (0 <= ctx_rerun (st_ctx s) ->
   retry_due runner (st_ctx s) c status <->
   is_Some runner /\ ctx_rerun (st_ctx s) > 0 /\ c_time c <= 5000 /\
   status = STATUS_TIME_LIMIT_EXCEEDED) /\
  (retry_due runner (st_ctx s) c status ->
   exists run,
     runner = Some run /\
     judgeCase ext c sub runner s = run sub (handoff sub s2) /\
     ctx_rerun (st_ctx (handoff sub s2)) = ctx_rerun (st_ctx s) - 1 /\
     st_log (handoff sub s2) = st_log s2 ++ [EvRunner sub]) /\
  (~ retry_due runner (st_ctx s) c status ->
   exists o s' evs,
     judgeCase ext c sub runner s = (o, s') /\
     ctx_rerun (st_ctx s') = ctx_rerun (st_ctx s) /\
     st_log s' = st_log s ++ evs /\
     runner_calls evs = 0%nat /\
     reports ext o (case_result c sub res (status, score, message))).
Proof.
  intros Hat.
  destruct (attempt_frame _ _ _ _ Hat) as (Hctx & evs & Hlog & _ & Hr & _).
  split.
  { unfold retry_due. intros Hnn.
    split; intros (Hsome & Hbudget & Htime & Hstatus);
      repeat split; try done; lia. }
  rewrite judgeCase_run, Hat. rewrite <- Hctx. split.
  - intros Hdue.
    destruct (retry_is_due c sub runner res (status, score, message) s2 Hdue)
      as (run & -> & Heq).
    exists run. by rewrite Heq.
  - intros Hnot.
    rewrite (retry_not_due c sub runner res (status, score, message)) by done.
    destruct (report ext c sub res (status, score, message) s2)
      as [o s'] eqn:Hrep.
    pose proof (report_reports _ _ _ _ _ _ _ Hrep) as Hreports.
    apply report_frame in Hrep.
    destruct Hrep as (Hrerun & evs' & Hlog' & _ & Hr' & _).
    exists o, s', (evs ++ evs'). split; [done|]. split; [done|].
    split; [by rewrite Hlog', Hlog, <- app_assoc|].
    split; [|done]. rewrite runner_calls_app. lia.
Qed.

(** ** Runtime errors *)

(** C7, as amended.  A RUNTIME_ERROR run with an exit code other than 0
    is reported with the Signal Table entry for the code when the code is
    below 32 and the process was signalled, and with the exit-code
    template otherwise. *)
Theorem judgeCase_runtime_error c sub runner (s : State W) res w1 code :
  sandbox_reports ext c s res w1 ->
  res_status res = STATUS_RUNTIME_ERROR ->
  res_code res = Some code ->
  code <> 0 ->
  exists o s' r,
    judgeCase ext c sub runner s = (o, s') /\
    reports ext o r /\
    cr_status r = STATUS_RUNTIME_ERROR /\
    (code < 32 -> res_signalled res = true ->
     cr_message r = signals_entry ext code) /\
    (~ (code < 32 /\ res_signalled res = true) ->
     cr_message r = MsgTemplate "Your program returned {0}." [code]).
Proof.
  intros Hrun Hst Hcode Hnz.
  rewrite judgeCase_run, (attempt_run _ _ _ _ Hrun).
  rewrite (classify_runtime_error _ _ _ code) by done.
  rewrite retry_not_due by (intros (_ & _ & _ & Heq); done).
  destruct (report ext c sub res _ _) as [o s'] eqn:Hrep.
  apply report_reports in Hrep.
  eexists o, s', _. split; [done|]. split; [exact Hrep|].
  split; [done|]. cbn. unfold runtime_error_message. split.
  - intros Hlt ->. by rewrite bool_decide_eq_true_2.
  - intros Hnot. case_bool_decide; [|done].
    destruct (res_signalled res); [|done]. exfalso. by apply Hnot.
Qed.

(** C10.  A RUNTIME_ERROR run whose exit code is 0 or absent is reported
    with the empty message: line 49 tests the code for truthiness, so
    neither the Signal Table nor the exit-code template is used. *)
Theorem judgeCase_falsy_exit_code c sub runner (s : State W) res w1 :
  sandbox_reports ext c s res w1 ->
  res_status res = STATUS_RUNTIME_ERROR ->
  res_code res = Some 0 \/ res_code res = None ->
  exists o s' r,
    judgeCase ext c sub runner s = (o, s') /\
    reports ext o r /\
    cr_status r = STATUS_RUNTIME_ERROR /\
    cr_message r = MsgString "".
Proof.
  intros Hrun Hst Hcode.
  rewrite judgeCase_run, (attempt_run _ _ _ _ Hrun).
  rewrite classify_pass_through.
  - rewrite retry_not_due
      by (intros (_ & _ & _ & Heq); cbn in Heq; congruence).
    destruct (report ext c sub res _ _) as [o s'] eqn:Hrep.
    apply report_reports in Hrep.
    eexists o, s', _. split; [done|]. split; [exact Hrep|]. by cbn.
  - congruence.
  - intros [_ Htr]. by destruct Hcode as [Hc|Hc]; rewrite Hc in Htr.
Qed.

(** ** Classification only downgrades *)

Lemma classify_accepted c res (s : State W) status score message s1 :
  classify ext c res s = (Ok (status, score, message), s1) ->
  res_status res = STATUS_ACCEPTED ->
  status = STATUS_TIME_LIMIT_EXCEEDED \/
  status = STATUS_MEMORY_LIMIT_EXCEEDED \/
  exists chk r w2,
    checkers ext !! cfg_checker_type (ctx_config (st_ctx s)) = Some chk /\
    chk (checker_args (st_ctx s) c res) (st_world s) = (Ok r, w2) /\
    (status, score, message) = verdict r.
Proof.
  intros Hcl Hst.
  destruct (decide (res_time res > c_time c)) as [Ht|Ht].
  { rewrite classify_time_limit in Hcl by done. left. congruence. }
  destruct (decide (res_memory res > c_memory c * 1024)) as [Hm|Hm].
  { rewrite classify_memory_limit in Hcl by done. right; left. congruence. }
  rewrite classify_within_limits in Hcl by done.
  unfold call_checker, throw, call in Hcl.
  destruct (checkers ext !! _) as [chk|] eqn:Hreg; [|done].
  destruct (chk _ _) as [[r|e] w2] eqn:Hchk; [|done].
  right; right. exists chk, r, w2. repeat split; congruence.
Qed.

(** C8, as amended.  When an attempt completes on the raw result [res]:
    the classified status is never better than the raw one; a raw
    ACCEPTED becomes TIME_LIMIT_EXCEEDED, MEMORY_LIMIT_EXCEEDED or the
    checker's verdict; every other raw status is kept, with score 0, and
    with the empty message unless it is a RUNTIME_ERROR with a truthy
    exit code.  That status and message are what [judgeCase] reports,
    unless the retry of line 54 is due. *)
Theorem judgeCase_never_upgrades c sub runner (s : State W)
    res status score message s2 :
  attempt ext c s = (Ok (res, (status, score, message)), s2) ->
  (exists w1, sandbox_reports ext c s res w1) /\
  ~ better status (res_status res) /\
  (res_status res = STATUS_ACCEPTED ->
   status = STATUS_TIME_LIMIT_EXCEEDED \/
   status = STATUS_MEMORY_LIMIT_EXCEEDED \/
   exists chk r w1 w2,
     checkers ext !! cfg_checker_type (ctx_config (st_ctx s)) = Some chk /\
     chk (checker_args (st_ctx s) c res) w1 = (Ok r, w2) /\
     (status, score, message) = verdict r) /\
  (res_status res <> STATUS_ACCEPTED ->
   status = res_status res /\ score = 0) /\
  (res_status res <> STATUS_ACCEPTED ->
   ~ (res_status res = STATUS_RUNTIME_ERROR /\
      truthy_code (res_code res) = true) ->
   message = MsgString "") /\
  (~ retry_due runner (st_ctx s) c status ->
   exists o s',
     judgeCase ext c sub runner s = (o, s') /\
     reports ext o (case_result c sub res (status, score, message))).
Proof.
  intros Hat.
  pose proof (attempt_frame _ _ _ _ Hat) as [Hctx _].
  pose proof Hat as Hcases. apply attempt_cases in Hcases.
  destruct Hcases as [(e & w1 & _ & Ho & _)|(res' & w1 & s1 & Hrun & Hcl)];
    [done|].
  destruct Hcl as [(v & Hcl & Ho & _)|(e & _ & Ho & _)]; [|done].
  injection Ho as <- <-.
  assert (Hkeep : res_status res <> STATUS_ACCEPTED ->
                  status = res_status res /\ score = 0).
  { intros Hne.
    destruct (classify_keeps_failure _ _ _ _ _ _ _ Hcl Hne) as (? & ? & _).
    done. }
  split; [by exists w1|]. split.
  { intros [-> Hne]. destruct (Hkeep Hne) as [Heq _]. congruence. }
  split.
  { intros Hst.
    destruct (classify_accepted _ _ _ _ _ _ _ Hcl Hst)
      as [?|[?|(chk & r & w2 & ? & ? & ?)]]; eauto 10. }
  split; [done|]. split.
  { intros Hne Hre. rewrite classify_pass_through in Hcl by done.
    congruence. }
  intros Hnot. rewrite judgeCase_run, Hat.
  rewrite <- Hctx in Hnot.
  rewrite (retry_not_due c sub runner res (status, score, message)) by done.
  destruct (report ext c sub res (status, score, message) s2)
    as [o s'] eqn:Hrep.
  apply report_reports in Hrep. eauto.
Qed.

End Facts.

(** ** Cleanup *)

Section Cleanup.

Context {W : Type}.
Variable ext : Externals W.

Lemma del_world_agree del' ids (w : W) :
  (forall id w, (del' id w).2 = (del ext id w).2) ->
  del_world (with_del ext del') ids w = del_world ext ids w.
Proof.
  intros Hagree. revert w.
  induction ids as [|id ids IH]; intros w; [done|].
  cbn. by rewrite Hagree, IH.
Qed.

Lemma attempt_del_agree del' c (s : State W) :
  (forall id w, (del' id w).2 = (del ext id w).2) ->
  attempt (with_del ext del') c s = attempt ext c s.
Proof.
  intros Hagree.
  destruct (runQueued ext (exe_execute (ctx_execute (st_ctx s)))
              (exec_request ext (st_ctx s) c) (st_world s))
    as [[res|e] w1] eqn:Hrun.
  - rewrite (attempt_run ext _ _ _ _ Hrun).
    rewrite (attempt_run (with_del ext del') c s res w1 Hrun).
    change (classify (with_del ext del') c res (ran (with_del ext del') c w1 s))
      with (classify ext c res (ran ext c w1 s)).
    destruct (classify ext c res (ran ext c w1 s)) as [[v|e] s1]; [|done].
    unfold cleaned. by rewrite del_world_agree.
  - rewrite (attempt_sandbox_throws ext _ _ _ _ Hrun).
    by rewrite (attempt_sandbox_throws (with_del ext del') c s e w1 Hrun).
Qed.

Lemma judgeCase_del_agree del' c sub runner runner' (s : State W) :
  (forall id w, (del' id w).2 = (del ext id w).2) ->
  match runner', runner with
  | Some run', Some run => forall sub s, run' sub s = run sub s
  | None, None => True
  | _, _ => False
  end ->
  judgeCase (with_del ext del') c sub runner' s = judgeCase ext c sub runner s.
Proof.
  intros Hagree Hrunner.
  rewrite !judgeCase_run, attempt_del_agree by done.
  destruct (attempt ext c s) as [[[res v]|e] s2]; [|done].
  unfold retry_or_report. rewrite !bind_run. cbn [get_ctx].
  destruct runner' as [run'|], runner as [run|]; try done.
  destruct (retry_eligible (st_ctx s2) c v.1.1); [|done].
  rewrite !bind_run. cbn [modify_ctx]. unfold call_runner. apply Hrunner.
Qed.

Lemma runner_fn_del_agree del' r sub (s : State W) :
  (forall id w, (del' id w).2 = (del ext id w).2) ->
  runner_fn (with_del ext del') r sub s = runner_fn ext r sub s.
Proof.
  intros Hagree. revert sub s.
  induction r as [c|c next IH]; intros sub s; cbn.
  - by apply judgeCase_del_agree.
  - apply judgeCase_del_agree; [done|]. apply IH.
Qed.

(** C6, as amended.  When an attempt completes (the sandbox answered and
    the checker, if it was called, returned), the deletions it made are
    exactly the values of the response's [fileIds], one attempt per
    entry; [judgeCase] itself adds no other deletion.  Whether a
    deletion resolves or rejects changes nothing in what [judgeCase]
    does, with the runner it was given and, for runners that are case
    runners, through the retried attempts as well. *)
Theorem judgeCase_cleanup c sub runner (s : State W) res v s2 :
  attempt ext c s = (Ok (res, v), s2) ->
  (exists w1, sandbox_reports ext c s res w1) /\
  (exists evs,
     st_log s2 = st_log s ++ evs /\
     deletions evs = fileId_values (res_fileIds res)) /\
  (~ retry_due runner (st_ctx s) c v.1.1 ->
   exists o s' evs,
     judgeCase ext c sub runner s = (o, s') /\
     st_log s' = st_log s ++ evs /\
     deletions evs = fileId_values (res_fileIds res)) /\
  (forall del',
     (forall id w, (del' id w).2 = (del ext id w).2) ->
     judgeCase (with_del ext del') c sub runner s
     = judgeCase ext c sub runner s /\
     forall i, invoke (with_del ext del') i s = invoke ext i s).
Proof.
  intros Hat.
  pose proof (attempt_frame ext _ _ _ _ Hat) as [Hctx _].
  pose proof Hat as Hcases. apply attempt_cases in Hcases.
  destruct Hcases as [(e & w1 & _ & Ho & _)|(res' & w1 & s1 & Hrun & Hcl)];
    [done|].
  destruct Hcl as [(v' & Hcl & Ho & ->)|(e & _ & Ho & _)]; [|done].
  injection Ho as <- <-.
  assert (Hdel : exists evs,
    st_log (cleaned ext (fileId_values (res_fileIds res)) s1)
    = st_log s ++ evs /\
    deletions evs = fileId_values (res_fileIds res)).
  { apply classify_frame in Hcl. destruct Hcl as [_ Hlog].
    unfold cleaned, ran in *. cbn in *.
    destruct Hlog as [->|(ty & args & ->)]; rewrite <- !app_assoc;
      eexists; (split; [done|]);
      rewrite !deletions_app, deletions_dels; done. }
  split; [by exists w1|]. split; [done|]. split.
  - intros Hnot. rewrite judgeCase_run, Hat.
    rewrite <- Hctx in Hnot. rewrite retry_not_due by done.
    destruct (report ext c sub res v _) as [o s'] eqn:Hrep.
    apply report_frame in Hrep.
    destruct Hrep as (_ & evs' & Hlog' & _ & _ & Hnodel).
    destruct Hdel as (evs & Hlog & Hdels).
    exists o, s', (evs ++ evs'). split; [done|].
    split; [by rewrite Hlog', Hlog, <- app_assoc|].
    by rewrite deletions_app, Hdels, Hnodel, app_nil_r.
  - intros del' Hagree. split.
    + apply judgeCase_del_agree; [done|]. by destruct runner.
    + intros i. unfold invoke. apply judgeCase_del_agree; [done|].
      destruct (inv_runner i) as [r|]; [|done].
      intros sub' s'. by apply runner_fn_del_agree.
Qed.

End Cleanup.

(** ** The analysis trigger *)

Section Analysis.

Context {W : Type}.
Variable ext : Externals W.

Lemma judgeCase_disciplined c sub runner :
  (forall run, runner = Some run -> analysis_disciplined (run sub)) ->
  analysis_disciplined (judgeCase ext c sub runner).
Proof.
  intros Hrunner s o s' Hj.
  rewrite judgeCase_run in Hj.
  destruct (attempt ext c s) as [[[res v]|e] s2] eqn:Hat.
  2:{ injection Hj as <- <-.
      destruct (attempt_frame ext _ _ _ _ Hat)
        as (Hctx & evs & Hlog & Ha & _ & _ & Hf).
      rewrite Hctx. repeat split; try done. exists evs. auto. }
  destruct (attempt_frame ext _ _ _ _ Hat)
    as (Hctx & evs & Hlog & Ha & _ & _ & Hf).
  destruct (retry_due_dec runner (st_ctx s2) c v.1.1) as [Hdue|Hnot].
  - destruct (retry_is_due ext c sub runner res v s2 Hdue)
      as (run & -> & Heq).
    rewrite Heq in Hj.
    destruct (Hrunner run eq_refl _ _ _ Hj)
      as (Hreq & Hmono & evs' & Hlog' & Hf' & Hcalls).
    cbn in Hreq, Hmono, Hlog', Hcalls. rewrite Hctx in *.
    split; [done|]. split; [done|].
    exists (evs ++ EvRunner sub :: evs').
    split; [rewrite Hlog', Hlog; by rewrite <- !app_assoc|].
    split; [apply Forall_app; split; [done|]; by constructor|].
    rewrite analysis_calls_app, Ha.
    change (analysis_calls (EvRunner sub :: evs')) with (analysis_calls evs').
    done.
  - rewrite (retry_not_due ext) in Hj by done.
    apply report_cases in Hj.
    destruct Hj as [(_ & -> & ->)|(Hdue & -> & Ho)].
    + rewrite Hctx. split; [done|]. split; [done|].
      exists evs. auto.
    + apply analysis_due_iff in Hdue. rewrite Hctx in Hdue.
      destruct Hdue as (Hrej & Hflag & Hst).
      unfold analysed. cbn. rewrite Hctx.
      split; [done|]. split; [done|].
      eexists. split; [rewrite Hlog; by rewrite <- app_assoc|].
      split; [apply Forall_app; split; [done|]; by repeat constructor|].
      right. rewrite analysis_calls_app, Ha.
      split; [done|]. repeat split; try done.
      intros r Hr. destruct Ho as [->|(e & -> & _)]; [|done].
      injection Hr as <-. by destruct v as [[status score] message].
Qed.

Lemma runner_fn_disciplined r sub :
  analysis_disciplined (runner_fn ext r sub).
Proof.
  revert sub. induction r as [c|c next IH]; intros sub; cbn.
  - by apply judgeCase_disciplined.
  - apply judgeCase_disciplined. intros run [= <-]. apply IH.
Qed.

Lemma invoke_disciplined i : analysis_disciplined (invoke ext i).
Proof.
  unfold invoke. apply judgeCase_disciplined.
  destruct (inv_runner i) as [r|]; [|done].
  intros run [= <-]. apply runner_fn_disciplined.
Qed.

Lemma run_invocations_analysis l (s : State W) :
  exists outs s' evs,
    run_invocations ext l s = (Ok outs, s') /\
    st_log s' = st_log s ++ evs /\
    Forall flag_set_at_call evs /\
    (analysis_calls evs <= 1)%nat /\
    (rejudged (ctx_request (st_ctx s)) = true -> analysis_calls evs = 0%nat) /\
    (ctx_analysis (st_ctx s) = true -> analysis_calls evs = 0%nat).
Proof.
  revert s. induction l as [|i l IH]; intros s.
  - exists [], s, []. cbn. rewrite app_nil_r. repeat split; auto.
  - unfold run_invocations. cbn [forM]. rewrite bind_run.
    unfold settled at 1.
    destruct (invoke ext i s) as [o s1] eqn:Hi.
    destruct (invoke_disciplined i _ _ _ Hi)
      as (Hreq & Hmono & evs1 & Hlog1 & Hf1 & Hcalls1).
    rewrite bind_run.
    destruct (IH s1) as (outs & s' & evs2 & Hrun & Hlog2 & Hf2 & Hle & Hrej & Hflag).
    unfold run_invocations in Hrun. rewrite Hrun.
    exists (o :: outs), s', (evs1 ++ evs2).
    split; [done|].
    split; [by rewrite Hlog2, Hlog1, <- app_assoc|].
    split; [by apply Forall_app|].
    rewrite analysis_calls_app. rewrite Hreq in Hrej.
    destruct Hcalls1 as [->|(-> & Hrej1 & Hflag1 & Hset & _)].
    + repeat split; [lia| |]; intros H; cbn; auto.
    + rewrite (Hflag Hset). repeat split; [lia| |]; congruence.
Qed.

(** The budget only goes down, one retry at a time, and never below
    zero once it is not negative. *)
Lemma judgeCase_budget c sub runner (s : State W) o s' :
  (forall run, runner = Some run ->
     forall s1 o1 s1', run sub s1 = (o1, s1') ->
       ctx_rerun (st_ctx s1') <= ctx_rerun (st_ctx s1) /\
       (0 <= ctx_rerun (st_ctx s1) -> 0 <= ctx_rerun (st_ctx s1'))) ->
  judgeCase ext c sub runner s = (o, s') ->
  ctx_rerun (st_ctx s') <= ctx_rerun (st_ctx s) /\
  (0 <= ctx_rerun (st_ctx s) -> 0 <= ctx_rerun (st_ctx s')).
Proof.
  intros Hrunner Hj. rewrite judgeCase_run in Hj.
  destruct (attempt ext c s) as [[[res v]|e] s2] eqn:Hat;
    destruct (attempt_frame ext _ _ _ _ Hat) as (Hctx & _).
  2:{ injection Hj as <- <-. rewrite Hctx. lia. }
  destruct (retry_due_dec runner (st_ctx s2) c v.1.1) as [Hdue|Hnot].
  - destruct (retry_is_due ext c sub runner res v s2 Hdue)
      as (run & -> & Heq).
    rewrite Heq in Hj. destruct Hdue as (_ & Hnz & _).
    destruct (Hrunner run eq_refl _ _ _ Hj) as [Hle Hnn].
    cbn in Hle, Hnn. rewrite Hctx in *. lia.
  - rewrite (retry_not_due ext) in Hj by done.
    apply report_frame in Hj. destruct Hj as [-> _]. rewrite Hctx. lia.
Qed.

Lemma invoke_budget i (s : State W) o s' :
  invoke ext i s = (o, s') ->
  ctx_rerun (st_ctx s') <= ctx_rerun (st_ctx s) /\
  (0 <= ctx_rerun (st_ctx s) -> 0 <= ctx_rerun (st_ctx s')).
Proof.
  unfold invoke. revert s o s'.
  assert (Hr : forall r sub s o s',
    runner_fn ext r sub s = (o, s') ->
    ctx_rerun (st_ctx s') <= ctx_rerun (st_ctx s) /\
    (0 <= ctx_rerun (st_ctx s) -> 0 <= ctx_rerun (st_ctx s'))).
  { induction r as [c|c next IH]; intros sub s o s'; cbn;
      apply judgeCase_budget; [done|].
    intros run [= <-]. apply IH. }
  intros s o s'. apply judgeCase_budget.
  destruct (inv_runner i) as [r|]; [|done].
  intros run [= <-]. apply Hr.
Qed.

(** C5.  Over any sequence of [judgeCase] invocations on one context,
    each with no runner or with a runner that is a case runner, the
    analysis is called at most once; never when the request is a rejudge,
    never when the flag is already set; and each call is made on a
    context whose flag has been set.  Each invocation calls it only from
    a state where the request is not a rejudge and the flag is clear,
    and then the result it returns is WRONG_ANSWER or RUNTIME_ERROR. *)
Theorem analysis_at_most_once l (s : State W) :
  exists outs s' evs,
    run_invocations ext l s = (Ok outs, s') /\
    st_log s' = st_log s ++ evs /\
    (analysis_calls evs <= 1)%nat /\
    (rejudged (ctx_request (st_ctx s)) = true -> analysis_calls evs = 0%nat) /\
    (ctx_analysis (st_ctx s) = true -> analysis_calls evs = 0%nat) /\
    Forall flag_set_at_call evs /\
    Forall (fun i => analysis_disciplined (invoke ext i)) l.
Proof.
  destruct (run_invocations_analysis l s)
    as (outs & s' & evs & Hrun & Hlog & Hf & Hle & Hrej & Hflag).
  exists outs, s', evs. repeat split; try done.
  apply Forall_forall. intros i _. apply invoke_disciplined.
Qed.

End Analysis.

(** ** The compile stage *)

Section Compile.

Context {W : Type}.
Variable ext : Externals W.

Lemma compile_stage_run (s : State W) :
  let ctx := st_ctx s in
  let r1 := compile ext ctx (ctx_lang ctx) (ctx_code ctx) (st_world s) in
  let r2 := compileLocalFile ext ctx "checker" (cfg_checker (ctx_config ctx))
              (cfg_checker_type (ctx_config ctx)) r1.2 in
  compile_stage ext s =
  match r1.1, r2.1 with
  | Ok execute, Ok checker =>
      (Ok tt, compile_called ext (set_executables execute checker ctx) s)
  | Throw e, _ => (Throw e, compile_called ext ctx s)
  | Ok _, Throw e => (Throw e, compile_called ext ctx s)
  end.
Proof.
  cbn zeta. unfold compile_stage, compile_called.
  rewrite bind_run. cbn [get_ctx]. rewrite bind_run.
  unfold settled at 1, call at 1.
  destruct (compile ext _ _ _ _) as [o1 w1]. rewrite bind_run.
  unfold settled, call. cbn [st_ctx st_world st_log].
  destruct (compileLocalFile ext _ _ _ _ _) as [o2 w2].
  cbn. rewrite <- app_assoc.
  destruct o1 as [execute|e1], o2 as [checker|e2]; done.
Qed.

(** C9.  [judge] hands the flow engine a task whose compile stage is
    [compile_stage] and whose per-case callback is [judgeCase].  The
    compile stage calls [ctx.compile(ctx.lang, ctx.code)] and
    [ctx.compileLocalFile('checker', ctx.config.checker,
    ctx.config.checker_type)]; when both resolve it stores the two results
    in [ctx.execute] and [ctx.checker], and the flow goes on to the cases
    in that context; when either rejects, the stage throws, the context
    is untouched and the flow ends there with no case run. *)
Theorem judge_compiles_before_cases (s : State W) :
  let ctx := st_ctx s in
  let r1 := compile ext ctx (ctx_lang ctx) (ctx_code ctx) (st_world s) in
  let r2 := compileLocalFile ext ctx "checker" (cfg_checker (ctx_config ctx))
              (cfg_checker_type (ctx_config ctx)) r1.2 in
  (forall R (flow : Task -> M W R),
     judge ext flow
     = flow {| task_compile := compile_stage ext;
               task_judgeCase := judgeCase ext |}) /\
  (forall execute checker,
     r1.1 = Ok execute -> r2.1 = Ok checker ->
     let s' := compile_called ext (set_executables execute checker ctx) s in
     compile_stage ext s = (Ok tt, s') /\
     ctx_execute (st_ctx s') = execute /\
     ctx_checker (st_ctx s') = checker /\
     judge ext runFlow s = run_cases (default_task ext) s') /\
  ((exists e, r1.1 = Throw e) \/ (exists e, r2.1 = Throw e) ->
   exists e,
     let s' := compile_called ext ctx s in
     compile_stage ext s = (Throw e, s') /\
     st_ctx s' = st_ctx s /\
     judge ext runFlow s = (Throw e, s') /\
     filter (fun ev => is_case_call ev = true)
            (drop (length (st_log s)) (st_log s')) = []).
Proof.
  cbn zeta. split; [done|]. split.
  - intros execute checker H1 H2.
    pose proof (compile_stage_run s) as Hrun. cbn zeta in Hrun.
    rewrite H1, H2 in Hrun.
    split; [done|]. split; [done|]. split; [done|].
    unfold judge, runFlow. rewrite bind_run.
    change (task_compile (default_task ext)) with (compile_stage ext).
    by rewrite Hrun.
  - intros Hthrow.
    pose proof (compile_stage_run s) as Hrun. cbn zeta in Hrun.
    assert (exists e, compile_stage ext s
                      = (Throw e, compile_called ext (st_ctx s) s))
      as [e He].
    { destruct Hthrow as [[e He]|[e He]]; rewrite He in Hrun.
      - eauto.
      - destruct (compile _ _ _ _ _).1; eauto. }
    exists e. split; [done|]. split; [done|]. split.
    + unfold judge, runFlow. rewrite bind_run.
      change (task_compile (default_task ext)) with (compile_stage ext).
      by rewrite He.
    + unfold compile_called. cbn [st_log].
      by rewrite drop_app_length.
Qed.

End Compile.

(** * Runs in the scripted sandbox *)

(** ** Time limit *)

(** C1 at rerun budget 0: the spec's example (limit 1000 ms, the sandbox
    reports ACCEPTED after 1200 ms), where no retry is due. *)
Lemma judgeCase_time_limit_witness :
  let c := Script.case 1000 256 in
  let runner := Script.retry c in
  let s := Script.state (Script.context 0 false false)
                        (Script.world [Ok Script.slow] []) in
  (sandbox_reports Script.ext c s Script.slow (Script.world [] []) /\
   res_status Script.slow = STATUS_ACCEPTED /\
   res_time Script.slow > c_time c) /\
  exists s2 evs,
    attempt Script.ext c s
    = (Ok (Script.slow, (STATUS_TIME_LIMIT_EXCEEDED, 0, MsgString "")), s2) /\
    st_log s2 = st_log s ++ evs /\
    checker_calls evs = 0%nat /\
    (~ retry_due runner (st_ctx s) c STATUS_TIME_LIMIT_EXCEEDED ->
     exists r,
       judgeCase Script.ext c Script.sub runner s = (Ok r, s2) /\
       cr_status r = STATUS_TIME_LIMIT_EXCEEDED /\ cr_score r = 0) /\
    (retry_due runner (st_ctx s) c STATUS_TIME_LIMIT_EXCEEDED ->
     exists run,
       runner = Some run /\
       judgeCase Script.ext c Script.sub runner s
       = run Script.sub (handoff Script.sub s2)).
Proof.
  cbn zeta.
  assert (Hrun : sandbox_reports Script.ext (Script.case 1000 256)
                   (Script.state (Script.context 0 false false)
                                 (Script.world [Ok Script.slow] []))
                   Script.slow (Script.world [] []))
    by reflexivity.
  assert (Hst : res_status Script.slow = STATUS_ACCEPTED) by reflexivity.
  assert (Ht : res_time Script.slow > c_time (Script.case 1000 256))
    by (cbn; lia).
  split; [by repeat split|].
  exact (judgeCase_time_limit Script.ext _ Script.sub
           (Script.retry (Script.case 1000 256)) _ _ _ Hrun Hst Ht).
Defined.

(** C1 as stated fails: with a runner and a budget of 2, the same slow
    run is retried, the second run is accepted after 900 ms, and
    [judgeCase] returns ACCEPTED with score 100, the checker having been
    called. *)
Lemma judgeCase_time_limit_counterexample :
  let c := Script.case 1000 256 in
  let accepted := Script.answer STATUS_ACCEPTED 100 in
  let s := Script.state (Script.context 2 false false)
             (Script.world [Ok Script.slow; Ok Script.fast] [Ok accepted]) in
  sandbox_reports Script.ext c s Script.slow
                  (Script.world [Ok Script.fast] [Ok accepted]) /\
  res_status Script.slow = STATUS_ACCEPTED /\
  res_time Script.slow > c_time c /\
  exists r s',
    judgeCase Script.ext c Script.sub (Script.retry c) s = (Ok r, s') /\
    cr_status r = STATUS_ACCEPTED /\
    cr_status r <> STATUS_TIME_LIMIT_EXCEEDED /\
    cr_score r = 100 /\
    checker_calls (st_log s') = 1%nat.
Proof.
  cbn zeta. split; [reflexivity|]. split; [reflexivity|].
  split; [reflexivity|].
  eexists _, _. split; [vm_compute; reflexivity|].
  split; [reflexivity|]. split; [discriminate|].
  split; reflexivity.
Qed.

(** ** Memory limit *)

(** C2 on a case with 64 KB: the sandbox reports ACCEPTED after 900 ms
    with 100000 bytes. *)
Lemma judgeCase_memory_limit_witness :
  let c := Script.case 1000 64 in
  let s := Script.state (Script.context 2 false false)
                        (Script.world [Ok Script.fast] []) in
  (sandbox_reports Script.ext c s Script.fast (Script.world [] []) /\
   res_status Script.fast = STATUS_ACCEPTED /\
   ~ res_time Script.fast > c_time c /\
   res_memory Script.fast > c_memory c * 1024) /\
  exists r s' evs,
    judgeCase Script.ext c Script.sub (Script.retry c) s = (Ok r, s') /\
    cr_status r = STATUS_MEMORY_LIMIT_EXCEEDED /\
    st_log s' = st_log s ++ evs /\
    checker_calls evs = 0%nat.
Proof.
  cbn zeta.
  assert (Hrun : sandbox_reports Script.ext (Script.case 1000 64)
                   (Script.state (Script.context 2 false false)
                                 (Script.world [Ok Script.fast] []))
                   Script.fast (Script.world [] []))
    by reflexivity.
  assert (Hst : res_status Script.fast = STATUS_ACCEPTED) by reflexivity.
  assert (Ht : ~ res_time Script.fast > c_time (Script.case 1000 64))
    by (cbn; lia).
  assert (Hm : res_memory Script.fast > c_memory (Script.case 1000 64) * 1024)
    by (cbn; lia).
  split; [by repeat split|].
  exact (judgeCase_memory_limit Script.ext _ Script.sub
           (Script.retry (Script.case 1000 64)) _ _ _ Hrun Hst Ht Hm).
Defined.

(** ** Checker *)

(** C3 on a run within both limits that the checker rejects: the result
    carries the checker's WRONG_ANSWER, score 0 and message. *)
Lemma judgeCase_checked_witness :
  let c := Script.case 1000 256 in
  let runner := Script.retry c in
  let r := Script.answer STATUS_WRONG_ANSWER 0 in
  let s := Script.state (Script.context 2 false false)
                        (Script.world [Ok Script.fast] [Ok r]) in
  (sandbox_reports Script.ext c s Script.fast (Script.world [] [Ok r]) /\
   res_status Script.fast = STATUS_ACCEPTED /\
   ~ res_time Script.fast > c_time c /\
   ~ res_memory Script.fast > c_memory c * 1024 /\
   checkers Script.ext !! cfg_checker_type (ctx_config (st_ctx s))
   = Some Script.checker /\
   Script.checker (checker_args (st_ctx s) c Script.fast)
                  (Script.world [] [Ok r])
   = (Ok r, Script.world [] [])) /\
  exists s2 evs,
    attempt Script.ext c s = (Ok (Script.fast, verdict r), s2) /\
    st_log s2 = st_log s ++ evs /\
    checker_calls evs = 1%nat /\
    (~ retry_due runner (st_ctx s) c (chk_status r) ->
     exists o s' evs' cr,
       judgeCase Script.ext c Script.sub runner s = (o, s') /\
       st_log s' = st_log s ++ evs' /\
       checker_calls evs' = 1%nat /\
       reports Script.ext o cr /\
       cr_status cr = chk_status r /\
       cr_score cr = chk_score r /\
       cr_message cr = chk_message r) /\
    (retry_due runner (st_ctx s) c (chk_status r) ->
     exists run,
       runner = Some run /\
       judgeCase Script.ext c Script.sub runner s
       = run Script.sub (handoff Script.sub s2)).
Proof.
  cbn zeta.
  set (c := Script.case 1000 256).
  set (r := Script.answer STATUS_WRONG_ANSWER 0).
  set (s := Script.state (Script.context 2 false false)
                         (Script.world [Ok Script.fast] [Ok r])).
  assert (Hrun : sandbox_reports Script.ext c s Script.fast
                                 (Script.world [] [Ok r]))
    by reflexivity.
  assert (Hst : res_status Script.fast = STATUS_ACCEPTED) by reflexivity.
  assert (Ht : ~ res_time Script.fast > c_time c) by (cbn; lia).
  assert (Hm : ~ res_memory Script.fast > c_memory c * 1024) by (cbn; lia).
  assert (Hreg : checkers Script.ext
                   !! cfg_checker_type (ctx_config (st_ctx s))
                 = Some Script.checker)
    by (vm_compute; reflexivity).
  assert (Hchk : Script.checker (checker_args (st_ctx s) c Script.fast)
                                (Script.world [] [Ok r])
                 = (Ok r, Script.world [] []))
    by reflexivity.
  split; [by repeat split|].
  exact (judgeCase_checked Script.ext c Script.sub (Script.retry c) s
           Script.fast _ Script.checker r _ Hrun Hst Ht Hm Hreg Hchk).
Defined.

(** C3 as stated fails: the checker answers TIME_LIMIT_EXCEEDED for a run
    within both limits, the retry fires, and the result [judgeCase]
    returns is the second attempt's (ACCEPTED, 100), after two checker
    calls. *)
Lemma judgeCase_checked_counterexample :
  let c := Script.case 1000 256 in
  let first := Script.answer STATUS_TIME_LIMIT_EXCEEDED 0 in
  let second := Script.answer STATUS_ACCEPTED 100 in
  let s := Script.state (Script.context 2 false false)
             (Script.world [Ok Script.fast; Ok Script.fast]
                           [Ok first; Ok second]) in
  sandbox_reports Script.ext c s Script.fast
    (Script.world [Ok Script.fast] [Ok first; Ok second]) /\
  res_status Script.fast = STATUS_ACCEPTED /\
  ~ res_time Script.fast > c_time c /\
  ~ res_memory Script.fast > c_memory c * 1024 /\
  Script.checker (checker_args (st_ctx s) c Script.fast)
                 (Script.world [Ok Script.fast] [Ok first; Ok second])
  = (Ok first, Script.world [Ok Script.fast] [Ok second]) /\
  exists cr s',
    judgeCase Script.ext c Script.sub (Script.retry c) s = (Ok cr, s') /\
    cr_status cr = STATUS_ACCEPTED /\
    cr_status cr <> chk_status first /\
    cr_score cr <> chk_score first /\
    checker_calls (st_log s') = 2%nat.
Proof.
  cbn zeta. split; [reflexivity|]. split; [reflexivity|].
  split; [cbn; lia|]. split; [cbn; lia|]. split; [reflexivity|].
  eexists _, _. split; [vm_compute; reflexivity|].
  split; [reflexivity|]. split; [discriminate|].
  split; [discriminate|reflexivity].
Qed.

(** ** Retry *)

(** C4 on the slow run with a budget of 2: the retry is due, the runner
    is called with a budget of 1 and its outcome is returned. *)
Lemma judgeCase_retry_witness :
  let c := Script.case 1000 256 in
  let runner := Script.retry c in
  let s := Script.state (Script.context 2 false false)
             (Script.world [Ok Script.slow; Ok Script.fast]
                           [Ok (Script.answer STATUS_ACCEPTED 100)]) in
  let s2 := (attempt Script.ext c s).2 in
  attempt Script.ext c s
  = (Ok (Script.slow, (STATUS_TIME_LIMIT_EXCEEDED, 0, MsgString "")), s2) /\
  retry_due runner (st_ctx s) c STATUS_TIME_LIMIT_EXCEEDED /\
  (0 <= ctx_rerun (st_ctx s) ->
   retry_due runner (st_ctx s) c STATUS_TIME_LIMIT_EXCEEDED <->
   is_Some runner /\ ctx_rerun (st_ctx s) > 0 /\ c_time c <= 5000 /\
   STATUS_TIME_LIMIT_EXCEEDED = STATUS_TIME_LIMIT_EXCEEDED) /\
  (retry_due runner (st_ctx s) c STATUS_TIME_LIMIT_EXCEEDED ->
   exists run,
     runner = Some run /\
     judgeCase Script.ext c Script.sub runner s
     = run Script.sub (handoff Script.sub s2) /\
     ctx_rerun (st_ctx (handoff Script.sub s2)) = ctx_rerun (st_ctx s) - 1 /\
     st_log (handoff Script.sub s2) = st_log s2 ++ [EvRunner Script.sub]) /\
  (~ retry_due runner (st_ctx s) c STATUS_TIME_LIMIT_EXCEEDED ->
   exists o s' evs,
     judgeCase Script.ext c Script.sub runner s = (o, s') /\
     ctx_rerun (st_ctx s') = ctx_rerun (st_ctx s) /\
     st_log s' = st_log s ++ evs /\
     runner_calls evs = 0%nat /\
     reports Script.ext o
       (case_result c Script.sub Script.slow
                    (STATUS_TIME_LIMIT_EXCEEDED, 0, MsgString ""))).
Proof.
  cbn zeta.
  set (c := Script.case 1000 256).
  set (s := Script.state (Script.context 2 false false)
              (Script.world [Ok Script.slow; Ok Script.fast]
                            [Ok (Script.answer STATUS_ACCEPTED 100)])).
  assert (Hat : attempt Script.ext c s
                = (Ok (Script.slow,
                       (STATUS_TIME_LIMIT_EXCEEDED, 0, MsgString "")),
                   (attempt Script.ext c s).2))
    by reflexivity.
  split; [exact Hat|]. split.
  { split; [by eexists|]. cbn. repeat split; lia. }
  exact (judgeCase_retry Script.ext c Script.sub (Script.retry c) s
           Script.slow STATUS_TIME_LIMIT_EXCEEDED 0 (MsgString "") _ Hat).
Defined.

(** C4 as stated fails: a budget of -1 is not greater than zero, yet it is
    truthy, so the retry fires; the budget goes to -2 and the retried
    attempt's result is returned. *)
Lemma judgeCase_retry_counterexample :
  let c := Script.case 1000 256 in
  let s := Script.state (Script.context (-1) false false)
             (Script.world [Ok Script.slow; Ok Script.fast]
                           [Ok (Script.answer STATUS_ACCEPTED 100)]) in
  ~ ctx_rerun (st_ctx s) > 0 /\
  attempt Script.ext c s
  = (Ok (Script.slow, (STATUS_TIME_LIMIT_EXCEEDED, 0, MsgString "")),
     (attempt Script.ext c s).2) /\
  exists cr s',
    judgeCase Script.ext c Script.sub (Script.retry c) s = (Ok cr, s') /\
    runner_calls (st_log s') = 1%nat /\
    ctx_rerun (st_ctx s') = -2 /\
    ctx_rerun (st_ctx s') <> ctx_rerun (st_ctx s) /\
    cr <> case_result c Script.sub Script.slow
                      (STATUS_TIME_LIMIT_EXCEEDED, 0, MsgString "").
Proof.
  cbn zeta. split; [cbn; lia|]. split; [reflexivity|].
  eexists _, _. split; [vm_compute; reflexivity|].
  split; [reflexivity|]. split; [reflexivity|].
  split; discriminate.
Qed.

(** ** Cleanup *)

(** C6 on an accepted run with two files. *)
Lemma judgeCase_cleanup_witness :
  let c := Script.case 1000 256 in
  let runner := Script.retry c in
  let v := verdict (Script.answer STATUS_ACCEPTED 100) in
  let s := Script.state (Script.context 2 false false)
             (Script.world [Ok Script.fast]
                           [Ok (Script.answer STATUS_ACCEPTED 100)]) in
  let s2 := (attempt Script.ext c s).2 in
  attempt Script.ext c s = (Ok (Script.fast, v), s2) /\
  (exists w1, sandbox_reports Script.ext c s Script.fast w1) /\
  (exists evs,
     st_log s2 = st_log s ++ evs /\
     deletions evs = fileId_values (res_fileIds Script.fast)) /\
  (~ retry_due runner (st_ctx s) c v.1.1 ->
   exists o s' evs,
     judgeCase Script.ext c Script.sub runner s = (o, s') /\
     st_log s' = st_log s ++ evs /\
     deletions evs = fileId_values (res_fileIds Script.fast)) /\
  (forall del',
     (forall id w, (del' id w).2 = (del Script.ext id w).2) ->
     judgeCase (with_del Script.ext del') c Script.sub runner s
     = judgeCase Script.ext c Script.sub runner s /\
     forall i, invoke (with_del Script.ext del') i s = invoke Script.ext i s).
Proof.
  cbn zeta.
  set (c := Script.case 1000 256).
  set (s := Script.state (Script.context 2 false false)
              (Script.world [Ok Script.fast]
                            [Ok (Script.answer STATUS_ACCEPTED 100)])).
  assert (Hat : attempt Script.ext c s
                = (Ok (Script.fast,
                       verdict (Script.answer STATUS_ACCEPTED 100)),
                   (attempt Script.ext c s).2))
    by reflexivity.
  split; [exact Hat|].
  exact (judgeCase_cleanup Script.ext c Script.sub (Script.retry c) s
           Script.fast _ _ Hat).
Defined.

(** C6 as stated fails: when the checker throws, [judgeCase] throws with
    it and neither file of the response is deleted. *)
Lemma judgeCase_cleanup_counterexample :
  let c := Script.case 1000 256 in
  let s := Script.state (Script.context 2 false false)
             (Script.world [Ok Script.fast] [Throw "checker crashed"]) in
  sandbox_reports Script.ext c s Script.fast
                  (Script.world [] [Throw "checker crashed"]) /\
  fileId_values (res_fileIds Script.fast) = ["f1"; "f2"] /\
  exists s',
    judgeCase Script.ext c Script.sub None s = (Throw "checker crashed", s') /\
    checker_calls (st_log s') = 1%nat /\
    deletions (st_log s') = [] /\
    Script.deleted (st_world s') = [].
Proof.
  cbn zeta. split; [reflexivity|]. split; [vm_compute; reflexivity|].
  eexists. split; [vm_compute; reflexivity|].
  split; [reflexivity|]. split; reflexivity.
Qed.

(** Deletions that all fail: the same result, the same calls. *)
Example judgeCase_all_deletions_fail :
  let c := Script.case 1000 256 in
  let s := Script.state (Script.context 2 false false)
             (Script.world [Ok Script.fast]
                           [Ok (Script.answer STATUS_ACCEPTED 100)]) in
  judgeCase (with_del Script.ext Script.delete_fails) c Script.sub None s
  = judgeCase Script.ext c Script.sub None s /\
  deletions (st_log (judgeCase Script.ext c Script.sub None s).2)
  = ["f1"; "f2"].
Proof. split; vm_compute; reflexivity. Qed.

(** ** Runtime errors *)

(** C7 on the spec's example: RUNTIME_ERROR, code 11, signalled. *)
Lemma judgeCase_runtime_error_witness :
  let c := Script.case 1000 256 in
  let res := Script.crashed (Some 11) true in
  let s := Script.state (Script.context 2 false false)
                        (Script.world [Ok res] []) in
  (sandbox_reports Script.ext c s res (Script.world [] []) /\
   res_status res = STATUS_RUNTIME_ERROR /\
   res_code res = Some 11 /\
   11 <> 0) /\
  signals_entry Script.ext 11 = MsgString "Segmentation fault" /\
  exists o s' r,
    judgeCase Script.ext c Script.sub None s = (o, s') /\
    reports Script.ext o r /\
    cr_status r = STATUS_RUNTIME_ERROR /\
    (11 < 32 -> res_signalled res = true ->
     cr_message r = signals_entry Script.ext 11) /\
    (~ (11 < 32 /\ res_signalled res = true) ->
     cr_message r = MsgTemplate "Your program returned {0}." [11]).
Proof.
  cbn zeta.
  set (c := Script.case 1000 256).
  set (res := Script.crashed (Some 11) true).
  set (s := Script.state (Script.context 2 false false)
                         (Script.world [Ok res] [])).
  assert (Hrun : sandbox_reports Script.ext c s res (Script.world [] []))
    by reflexivity.
  assert (Hst : res_status res = STATUS_RUNTIME_ERROR) by reflexivity.
  assert (Hcode : res_code res = Some 11) by reflexivity.
  assert (Hnz : 11 <> 0) by lia.
  split; [by repeat split|]. split; [vm_compute; reflexivity|].
  exact (judgeCase_runtime_error Script.ext c Script.sub None s res _ 11
           Hrun Hst Hcode Hnz).
Defined.

(** C7 as stated fails: an exit code of 0 is present, the process was not
    signalled, and the message is empty rather than the exit-code
    template. *)
Lemma judgeCase_runtime_error_counterexample :
  let c := Script.case 1000 256 in
  let res := Script.crashed (Some 0) false in
  let s := Script.state (Script.context 2 false false)
                        (Script.world [Ok res] []) in
  sandbox_reports Script.ext c s res (Script.world [] []) /\
  res_status res = STATUS_RUNTIME_ERROR /\
  res_code res = Some 0 /\
  ~ (0 < 32 /\ res_signalled res = true) /\
  exists r s',
    judgeCase Script.ext c Script.sub None s = (Ok r, s') /\
    cr_message r = MsgString "" /\
    cr_message r <> MsgTemplate "Your program returned {0}." [0].
Proof.
  cbn zeta. split; [reflexivity|]. split; [reflexivity|].
  split; [reflexivity|]. split; [by intros [_ H]|].
  eexists _, _. split; [vm_compute; reflexivity|].
  split; [reflexivity|discriminate].
Qed.

(** C10 on a RUNTIME_ERROR with exit code 0, signalled. *)
Lemma judgeCase_falsy_exit_code_witness :
  let c := Script.case 1000 256 in
  let res := Script.crashed (Some 0) true in
  let s := Script.state (Script.context 2 false false)
                        (Script.world [Ok res] []) in
  (sandbox_reports Script.ext c s res (Script.world [] []) /\
   res_status res = STATUS_RUNTIME_ERROR /\
   (res_code res = Some 0 \/ res_code res = None)) /\
  exists o s' r,
    judgeCase Script.ext c Script.sub None s = (o, s') /\
    reports Script.ext o r /\
    cr_status r = STATUS_RUNTIME_ERROR /\
    cr_message r = MsgString "".
Proof.
  cbn zeta.
  set (c := Script.case 1000 256).
  set (res := Script.crashed (Some 0) true).
  set (s := Script.state (Script.context 2 false false)
                         (Script.world [Ok res] [])).
  assert (Hrun : sandbox_reports Script.ext c s res (Script.world [] []))
    by reflexivity.
  assert (Hst : res_status res = STATUS_RUNTIME_ERROR) by reflexivity.
  assert (Hcode : res_code res = Some 0 \/ res_code res = None)
    by (left; reflexivity).
  split; [by repeat split|].
  exact (judgeCase_falsy_exit_code Script.ext c Script.sub None s
           res _ Hrun Hst Hcode).
Defined.

(** ** Classification only downgrades *)

(** C8 on a raw TIME_LIMIT_EXCEEDED with no budget left. *)
Lemma judgeCase_never_upgrades_witness :
  let c := Script.case 1000 256 in
  let runner := Script.retry c in
  let s := Script.state (Script.context 0 false false)
                        (Script.world [Ok Script.timed_out] []) in
  let res := Script.timed_out in
  let status := STATUS_TIME_LIMIT_EXCEEDED in
  let score := 0 in
  let message := MsgString "" in
  attempt Script.ext c s
  = (Ok (res, (status, score, message)), (attempt Script.ext c s).2) /\
  (exists w1, sandbox_reports Script.ext c s res w1) /\
  ~ better status (res_status res) /\
  (res_status res = STATUS_ACCEPTED ->
   status = STATUS_TIME_LIMIT_EXCEEDED \/
   status = STATUS_MEMORY_LIMIT_EXCEEDED \/
   exists chk r w1 w2,
     checkers Script.ext !! cfg_checker_type (ctx_config (st_ctx s))
     = Some chk /\
     chk (checker_args (st_ctx s) c res) w1 = (Ok r, w2) /\
     (status, score, message) = verdict r) /\
  (res_status res <> STATUS_ACCEPTED ->
   status = res_status res /\ score = 0) /\
  (res_status res <> STATUS_ACCEPTED ->
   ~ (res_status res = STATUS_RUNTIME_ERROR /\
      truthy_code (res_code res) = true) ->
   message = MsgString "") /\
  (~ retry_due runner (st_ctx s) c status ->
   exists o s',
     judgeCase Script.ext c Script.sub runner s = (o, s') /\
     reports Script.ext o (case_result c Script.sub res (status, score, message))).
Proof.
  cbn zeta.
  set (c := Script.case 1000 256).
  set (s := Script.state (Script.context 0 false false)
                         (Script.world [Ok Script.timed_out] [])).
  assert (Hat : attempt Script.ext c s
                = (Ok (Script.timed_out,
                       (STATUS_TIME_LIMIT_EXCEEDED, 0, MsgString "")),
                   (attempt Script.ext c s).2))
    by reflexivity.
  split; [exact Hat|].
  exact (judgeCase_never_upgrades Script.ext c Script.sub (Script.retry c) s
           Script.timed_out STATUS_TIME_LIMIT_EXCEEDED 0 (MsgString "") _ Hat).
Defined.

(** C8 as stated fails: a raw TIME_LIMIT_EXCEEDED run is retried, the
    second run is accepted, and [judgeCase] returns ACCEPTED: a better
    verdict than the raw status, which did not pass through. *)
Lemma judgeCase_never_upgrades_counterexample :
  let c := Script.case 1000 256 in
  let s := Script.state (Script.context 2 false false)
             (Script.world [Ok Script.timed_out; Ok Script.fast]
                           [Ok (Script.answer STATUS_ACCEPTED 100)]) in
  sandbox_reports Script.ext c s Script.timed_out
    (Script.world [Ok Script.fast] [Ok (Script.answer STATUS_ACCEPTED 100)]) /\
  res_status Script.timed_out = STATUS_TIME_LIMIT_EXCEEDED /\
  exists r s',
    judgeCase Script.ext c Script.sub (Script.retry c) s = (Ok r, s') /\
    cr_status r = STATUS_ACCEPTED /\
    cr_status r <> res_status Script.timed_out /\
    better (cr_status r) (res_status Script.timed_out).
Proof.
  cbn zeta. split; [reflexivity|]. split; [reflexivity|].
  eexists _, _. split; [vm_compute; reflexivity|].
  split; [reflexivity|]. split; [discriminate|].
  split; [reflexivity|discriminate].
Qed.

(** ** Analysis *)

(** Two failing cases in a row, then a third: one analysis call, made on
    a context whose flag is set. *)
Example analysis_runs_once :
  let c := Script.case 1000 256 in
  let i := {| inv_case := c; inv_subtask := Script.sub;
              inv_runner := Some (RunnerLast c) |} in
  let s := Script.state (Script.context 2 false false)
             (Script.world
                [Ok (Script.crashed (Some 11) true); Ok Script.fast;
                 Ok (Script.crashed (Some 1) false)]
                [Ok (Script.answer STATUS_WRONG_ANSWER 0)]) in
  let s' := (run_invocations Script.ext [i; i; i] s).2 in
  analysis_calls (st_log s') = 1%nat /\
  ctx_analysis (st_ctx s') = true /\
  (cr_status <$> omap (fun o => match o with Ok r => Some r | Throw _ => None end)
                      (default [] (match (run_invocations Script.ext [i; i; i] s).1
                                   with Ok l => Some l | Throw _ => None end)))
  = [STATUS_RUNTIME_ERROR; STATUS_WRONG_ANSWER; STATUS_RUNTIME_ERROR].
Proof. repeat split; vm_compute; reflexivity. Qed.

(** On a rejudge the analysis is not called at all. *)
Example analysis_skipped_on_rejudge :
  let c := Script.case 1000 256 in
  let i := {| inv_case := c; inv_subtask := Script.sub; inv_runner := None |} in
  let s := Script.state (Script.context 2 false true)
             (Script.world [Ok (Script.crashed (Some 11) true)] []) in
  analysis_calls (st_log (run_invocations Script.ext [i] s).2) = 0%nat.
Proof. vm_compute; reflexivity. Qed.

(** ** Compile stage *)

(** Both compilations succeed: the executables are stored and the one case
    of the configuration runs.  The checker's compilation fails: nothing
    runs. *)
Example judge_compiles_then_runs :
  let s := Script.state (Script.context 2 false false)
             (Script.world [Ok Script.fast]
                           [Ok (Script.answer STATUS_ACCEPTED 100)]) in
  let out := judge Script.ext runFlow s in
  (cr_status <$> concat (default [] (match out.1 with
                                      | Ok l => Some l
                                      | Throw _ => None
                                      end)))
  = [STATUS_ACCEPTED] /\
  exe_execute (ctx_execute (st_ctx out.2)) = "/w/foo" /\
  exe_execute (ctx_checker (st_ctx out.2)) = "/w/checker" /\
  filter (fun ev => is_case_call ev = true) (take 2 (st_log out.2)) = [].
Proof. repeat split; vm_compute; reflexivity. Qed.

Example judge_compile_failure_stops :
  let w := Script.world [Ok Script.fast]
                        [Ok (Script.answer STATUS_ACCEPTED 100)] in
  let w' := {| Script.runs := Script.runs w; Script.answers := Script.answers w;
               Script.deleted := []; Script.analysis_fails := false;
               Script.compile_fails := false;
               Script.compile_checker_fails := true |} in
  let out := judge Script.ext runFlow
                   (Script.state (Script.context 2 false false) w') in
  out.1 = Throw "checker compile error" /\
  length (st_log out.2) = 2%nat /\
  filter (fun ev => is_case_call ev = true) (st_log out.2) = [].
Proof. repeat split; vm_compute; reflexivity. Qed.

(** ** Retry budget *)

(** A budget of 2 and three timeouts in a row, with a runner that passes
    a runner on once: two retries bring the budget to 0, and the third
    TIME_LIMIT_EXCEEDED is returned. *)
Example retry_budget_exhausted :
  let c := Script.case 2000 256 in
  let runner := Some (runner_fn Script.ext (RunnerThen c (RunnerLast c))) in
  let s := Script.state (Script.context 2 false false)
             (Script.world [Ok Script.timed_out; Ok Script.timed_out;
                            Ok Script.timed_out] []) in
  let out := judgeCase Script.ext c Script.sub runner s in
  (cr_status <$> match out.1 with Ok r => Some r | Throw _ => None end)
  = Some STATUS_TIME_LIMIT_EXCEEDED /\
  ctx_rerun (st_ctx out.2) = 0 /\
  runner_calls (st_log out.2) = 2%nat /\
  Script.runs (st_world out.2) = [].
Proof. repeat split; vm_compute; reflexivity. Qed.

(** ** Instances of the two unconditional theorems *)

(** C5 on three invocations in a row, two of which fail. *)
Lemma analysis_at_most_once_witness :
  let c := Script.case 1000 256 in
  let i := {| inv_case := c; inv_subtask := Script.sub;
              inv_runner := Some (RunnerLast c) |} in
  let l := [i; i; i] in
  let s := Script.state (Script.context 2 false false)
             (Script.world
                [Ok (Script.crashed (Some 11) true); Ok Script.fast;
                 Ok (Script.crashed (Some 1) false)]
                [Ok (Script.answer STATUS_WRONG_ANSWER 0)]) in
  exists outs s' evs,
    run_invocations Script.ext l s = (Ok outs, s') /\
    st_log s' = st_log s ++ evs /\
    (analysis_calls evs <= 1)%nat /\
    (rejudged (ctx_request (st_ctx s)) = true -> analysis_calls evs = 0%nat) /\
    (ctx_analysis (st_ctx s) = true -> analysis_calls evs = 0%nat) /\
    Forall flag_set_at_call evs /\
    Forall (fun i => analysis_disciplined (invoke Script.ext i)) l.
Proof.
  cbn zeta. exact (analysis_at_most_once Script.ext _ _).
Defined.

(** C9 when both compilations succeed. *)
Lemma judge_compiles_before_cases_witness :
  let s := Script.state (Script.context 2 false false)
             (Script.world [Ok Script.fast]
                           [Ok (Script.answer STATUS_ACCEPTED 100)]) in
  let execute := {| exe_execute := "/w/foo"; exe_copyIn := None |} in
  let checker := {| exe_execute := "/w/checker"; exe_copyIn := None |} in
  let s' := compile_called Script.ext
              (set_executables execute checker (st_ctx s)) s in
  compile_stage Script.ext s = (Ok tt, s') /\
  ctx_execute (st_ctx s') = execute /\
  ctx_checker (st_ctx s') = checker /\
  judge Script.ext runFlow s = run_cases (default_task Script.ext) s'.
Proof.
  cbn zeta.
  apply (proj1 (proj2 (judge_compiles_before_cases Script.ext
           (Script.state (Script.context 2 false false)
              (Script.world [Ok Script.fast]
                            [Ok (Script.answer STATUS_ACCEPTED 100)])))));
    reflexivity.
Defined.

(** * Further properties of [judgeCase] *)

Section Failures.

Context {W : Type}.
Variable ext : Externals W.

Lemma sandbox_runs_app a b :
  sandbox_runs (a ++ b) = (sandbox_runs a + sandbox_runs b)%nat.
Proof. unfold sandbox_runs. by rewrite filter_app, length_app. Qed.

Lemma sandbox_runs_dels ids : sandbox_runs (map EvDel ids) = 0%nat.
Proof. by induction ids. Qed.

(** What classification adds to the log: nothing, or the one checker
    call; and a status of ACCEPTED or a score other than 0 comes with the
    checker call. *)
Lemma classify_log c res (s : State W) o s1 :
  classify ext c res s = (o, s1) ->
  st_ctx s1 = st_ctx s /\
  exists pre,
    st_log s1 = st_log s ++ pre /\
    (pre = [] \/ exists ty args, pre = [EvChecker ty args]) /\
    (forall status score message,
       o = Ok (status, score, message) ->
       status = STATUS_ACCEPTED \/ score <> 0 -> pre <> []).
Proof.
  intros Hcl.
  destruct (decide (res_status res = STATUS_ACCEPTED)) as [Hst|Hst].
  - destruct (decide (res_time res > c_time c)) as [Ht|Ht].
    { rewrite classify_time_limit in Hcl by done. injection Hcl as <- <-.
      split; [done|]. exists []. rewrite app_nil_r. split; [done|].
      split; [by left|]. intros ? ? ? [= <- <- <-] [?|?]; done. }
    destruct (decide (res_memory res > c_memory c * 1024)) as [Hm|Hm].
    { rewrite classify_memory_limit in Hcl by done. injection Hcl as <- <-.
      split; [done|]. exists []. rewrite app_nil_r. split; [done|].
      split; [by left|]. intros ? ? ? [= <- <- <-] [?|?]; done. }
    rewrite classify_within_limits in Hcl by done.
    unfold call_checker, throw, call in Hcl.
    destruct (checkers ext !! _) as [chk|].
    + destruct (chk _ _) as [[r|e] w2]; injection Hcl as <- <-;
        (split; [done|]); eexists; (split; [done|]);
        (split; [right; eauto|]); done.
    + injection Hcl as <- <-. split; [done|]. exists [].
      rewrite app_nil_r. split; [done|]. split; [by left|]. done.
  - unfold classify in Hcl.
    rewrite bool_decide_eq_false_2 in Hcl by done.
    assert (exists message, o = Ok (res_status res, 0, message) /\ s1 = s)
      as (message & -> & ->).
    { destruct (_ && _), (res_code res); injection Hcl as <- <-; eauto. }
    split; [done|]. exists []. rewrite app_nil_r. split; [done|].
    split; [by left|]. intros ? ? ? [= <- <- <-] [?|?]; done.
Qed.

(** The calls of one attempt, in order: the sandbox run, the checker call
    if there is one, then the deletions, which are made exactly when the
    attempt completes. *)
Lemma attempt_log c (s : State W) o s2 :
  attempt ext c s = (o, s2) ->
  st_ctx s2 = st_ctx s /\
  exists pre dels,
    st_log s2
    = st_log s ++ EvRunQueued (exe_execute (ctx_execute (st_ctx s)))
                              (exec_request ext (st_ctx s) c)
                  :: pre ++ map EvDel dels /\
    (pre = [] \/ exists ty args, pre = [EvChecker ty args]) /\
    (forall res v,
       o = Ok (res, v) ->
       (exists w1, sandbox_reports ext c s res w1) /\
       dels = fileId_values (res_fileIds res) /\
       (v.1.1 = STATUS_ACCEPTED \/ v.1.2 <> 0 -> pre <> [])) /\
    (forall e, o = Throw e -> dels = []).
Proof.
  intros Hat. apply attempt_cases in Hat.
  destruct Hat as [(e & w1 & _ & -> & ->)|(res & w1 & s1 & Hrun & Hcl)].
  { split; [done|]. exists [], []. cbn. split; [done|].
    split; [by left|]. split; [done|]. done. }
  assert (exists o', classify ext c res (ran ext c w1 s) = (o', s1))
    as [o' Hcl'].
  { destruct Hcl as [(v & -> & _)|(e & -> & _)]; eauto. }
  destruct (classify_log _ _ _ _ _ Hcl') as (Hctx & pre & Hlog & Hpre & Hsc).
  destruct Hcl as [(v & Hv & -> & ->)|(e & He & -> & ->)].
  - split; [done|]. exists pre, (fileId_values (res_fileIds res)).
    unfold cleaned. cbn. rewrite Hlog. cbn. rewrite <- !app_assoc.
    split; [done|]. split; [done|]. split; [|done].
    intros res' v' [= <- <-]. split; [eauto|]. split; [done|].
    rewrite Hv in Hcl'. injection Hcl' as <-.
    destruct v as [[status score] message]. by apply (Hsc _ _ message).
  - split; [done|]. exists pre, []. rewrite Hlog. cbn.
    rewrite <- !app_assoc, app_nil_r.
    split; [done|]. split; [done|]. split; done.
Qed.

(** ** Failing collaborators *)

(** X1.  When the sandbox run throws, [judgeCase] throws the same error
    at once: the context is as it was and the run is the only call
    made. *)
Theorem judgeCase_sandbox_failure c sub runner (s : State W) e w1 :
  runQueued ext (exe_execute (ctx_execute (st_ctx s)))
            (exec_request ext (st_ctx s) c) (st_world s) = (Throw e, w1) ->
  exists s',
    judgeCase ext c sub runner s = (Throw e, s') /\
    st_ctx s' = st_ctx s /\
    st_world s' = w1 /\
    st_log s'
    = st_log s ++ [EvRunQueued (exe_execute (ctx_execute (st_ctx s)))
                               (exec_request ext (st_ctx s) c)].
Proof.
  intros Hrun. rewrite judgeCase_run.
  rewrite (attempt_sandbox_throws ext _ _ _ _ Hrun).
  by eexists.
Qed.

(** X2.  When the checker type of the configuration is not in the
    registry, an accepted run within both limits makes [judgeCase] throw:
    no checker is called, nothing is deleted, the context is as it
    was. *)
Theorem judgeCase_checker_missing c sub runner (s : State W) res w1 :
  sandbox_reports ext c s res w1 ->
  res_status res = STATUS_ACCEPTED ->
  ~ res_time res > c_time c ->
  ~ res_memory res > c_memory c * 1024 ->
  checkers ext !! cfg_checker_type (ctx_config (st_ctx s)) = None ->
  exists e s',
    judgeCase ext c sub runner s = (Throw e, s') /\
    st_ctx s' = st_ctx s /\
    st_world s' = w1 /\
    st_log s'
    = st_log s ++ [EvRunQueued (exe_execute (ctx_execute (st_ctx s)))
                               (exec_request ext (st_ctx s) c)].
Proof.
  intros Hrun Hst Ht Hm Hreg.
  rewrite judgeCase_run, (attempt_run ext _ _ _ _ Hrun).
  rewrite classify_within_limits by done.
  unfold call_checker. cbn [ran st_ctx]. rewrite Hreg. unfold throw.
  by eexists _, _.
Qed.

(** X3.  When the checker throws, [judgeCase] throws the same error:
    line 53 is not reached, so nothing is deleted; neither the runner nor
    the analysis is called and the context is as it was. *)
Theorem judgeCase_checker_failure c sub runner (s : State W) res w1 chk e w2 :
  sandbox_reports ext c s res w1 ->
  res_status res = STATUS_ACCEPTED ->
  ~ res_time res > c_time c ->
  ~ res_memory res > c_memory c * 1024 ->
  checkers ext !! cfg_checker_type (ctx_config (st_ctx s)) = Some chk ->
  chk (checker_args (st_ctx s) c res) w1 = (Throw e, w2) ->
  exists s',
    judgeCase ext c sub runner s = (Throw e, s') /\
    st_ctx s' = st_ctx s /\
    st_world s' = w2 /\
    st_log s'
    = st_log s ++ [EvRunQueued (exe_execute (ctx_execute (st_ctx s)))
                               (exec_request ext (st_ctx s) c);
                   EvChecker (cfg_checker_type (ctx_config (st_ctx s)))
                             (checker_args (st_ctx s) c res)].
Proof.
  intros Hrun Hst Ht Hm Hreg Hchk.
  rewrite judgeCase_run, (attempt_run ext _ _ _ _ Hrun).
  rewrite (classify_checker_throws ext _ _ _ chk e w2) by done.
  eexists. split; [done|]. unfold checked, ran. cbn.
  by rewrite <- app_assoc.
Qed.

(** X4.  When the analysis is due and throws, [judgeCase] throws its
    error instead of returning the result of the attempt.  By then the
    flag is set, and it stays set; the files of the attempt are deleted
    and the budget is as it was. *)
Theorem judgeCase_analysis_failure c sub runner (s : State W)
    res status score message s2 e w3 :
  attempt ext c s = (Ok (res, (status, score, message)), s2) ->
  ~ retry_due runner (st_ctx s) c status ->
  analysis_due (st_ctx s) status = true ->
  runAnalysis ext (set_analysis true (st_ctx s)) (ctx_execute (st_ctx s))
              (Src (ctx_input (st_ctx s))) (st_world s2) = (Throw e, w3) ->
  exists s' evs,
    judgeCase ext c sub runner s = (Throw e, s') /\
    st_ctx s' = set_analysis true (st_ctx s) /\
    st_log s'
    = st_log s ++ evs ++ [EvRunAnalysis (set_analysis true (st_ctx s))
                                        (ctx_execute (st_ctx s))
                                        (Src (ctx_input (st_ctx s)))] /\
    deletions evs = fileId_values (res_fileIds res) /\
    analysis_calls evs = 0%nat.
Proof.
  intros Hat Hnot Hdue Hthrow.
  destruct (attempt_frame ext _ _ _ _ Hat)
    as (Hctx & evs0 & _ & Ha0 & _).
  destruct (attempt_log _ _ _ _ Hat) as (_ & pre & dels & Hlog & Hpre & Hok & _).
  destruct (Hok _ _ eq_refl) as (_ & -> & _).
  rewrite judgeCase_run, Hat. rewrite <- Hctx in *.
  rewrite (retry_not_due ext c sub runner res (status, score, message))
    by done.
  rewrite report_analysis by done. rewrite Hthrow. cbn [fst].
  eexists _, _. split; [done|]. unfold analysed. cbn.
  split; [done|]. rewrite Hlog. split; [by rewrite <- app_assoc|].
  split.
  - change (?a :: ?l) with ([a] ++ l).
    rewrite !deletions_app, deletions_dels.
    destruct Hpre as [->|(ty & args & ->)]; done.
  - change (?a :: ?l) with ([a] ++ l).
    rewrite !analysis_calls_app, analysis_calls_dels.
    destruct Hpre as [->|(ty & args & ->)]; done.
Qed.

(** ** The order of the calls *)

(** X12.  Without a runner, the calls of [judgeCase] come in this order:
    the sandbox run; the checker call, if any; the deletions; the
    analysis call, if any.  No file is deleted before the checker has
    been called, and the analysis starts after the deletions. *)
Theorem judgeCase_call_order c sub (s : State W) :
  exists o s' pre dels post,
    judgeCase ext c sub None s = (o, s') /\
    st_log s'
    = st_log s ++ EvRunQueued (exe_execute (ctx_execute (st_ctx s)))
                              (exec_request ext (st_ctx s) c)
                  :: pre ++ map EvDel dels ++ post /\
    (pre = [] \/ exists ty args, pre = [EvChecker ty args]) /\
    (post = [] \/ exists this exe inp, post = [EvRunAnalysis this exe inp]) /\
    (forall r, o = Ok r ->
       exists res w1,
         sandbox_reports ext c s res w1 /\
         dels = fileId_values (res_fileIds res)).
Proof.
  destruct (judgeCase ext c sub None s) as [o s'] eqn:Hj.
  rewrite judgeCase_run in Hj.
  destruct (attempt ext c s) as [[[res v]|e] s2] eqn:Hat;
    destruct (attempt_log _ _ _ _ Hat)
      as (Hctx & pre & dels & Hlog & Hpre & Hok & Hthrow).
  2:{ injection Hj as <- <-. rewrite (Hthrow e eq_refl) in *.
      exists (Throw e), s2, pre, [], []. split; [done|].
      split; [by rewrite Hlog|]. split; [done|]. split; [by left|]. done. }
  destruct (Hok _ _ eq_refl) as ((w1 & Hrun) & -> & _).
  rewrite retry_skipped in Hj by (by left).
  apply report_cases in Hj.
  destruct Hj as [(_ & -> & ->)|(_ & -> & Ho)].
  - eexists _, s2, pre, _, []. split; [done|].
    split; [by rewrite Hlog, app_nil_r|]. split; [done|].
    split; [by left|]. eauto.
  - exists o, (analysed ext s2), pre, (fileId_values (res_fileIds res)).
    eexists. split; [done|]. unfold analysed. cbn [st_log]. rewrite Hlog.
    split; [rewrite <- app_assoc; cbn; by rewrite <- app_assoc|].
    split; [done|]. split; [right; eauto|]. eauto.
Qed.

End Failures.

(** ** Attempts, retries and the budget *)

Section Accounting.

Context {W : Type}.
Variable ext : Externals W.

Lemma same_inputs_refl ctx : same_inputs ctx ctx.
Proof. by repeat split. Qed.

Lemma same_inputs_trans a b c :
  same_inputs a b -> same_inputs b c -> same_inputs a c.
Proof.
  unfold same_inputs. intros (?&?&?&?&?&?&?&?) (?&?&?&?&?&?&?&?).
  repeat split; congruence.
Qed.

Lemma attempt_counts exe req pre dels :
  pre = [] \/ (exists ty args, pre = [EvChecker ty args]) ->
  sandbox_runs (EvRunQueued exe req :: pre ++ map EvDel dels) = 1%nat /\
  runner_calls (EvRunQueued exe req :: pre ++ map EvDel dels) = 0%nat /\
  analysis_calls (EvRunQueued exe req :: pre ++ map EvDel dels) = 0%nat /\
  checker_calls (EvRunQueued exe req :: pre ++ map EvDel dels) = length pre.
Proof.
  intros Hpre.
  change (EvRunQueued exe req :: pre ++ map EvDel dels)
    with ([EvRunQueued exe req] ++ pre ++ map EvDel dels).
  rewrite !sandbox_runs_app, !runner_calls_app, !analysis_calls_app,
    !checker_calls_app.
  rewrite sandbox_runs_dels, runner_calls_dels, analysis_calls_dels,
    checker_calls_dels.
  destruct Hpre as [->|(ty & args & ->)]; done.
Qed.

Lemma judgeCase_accounted d c sub runner :
  (forall run, runner = Some run -> accounted d (run sub)) ->
  accounted (match runner with Some _ => S d | None => 0%nat end)
            (judgeCase ext c sub runner).
Proof.
  intros Hrunner s o s' Hj. rewrite judgeCase_run in Hj.
  destruct (attempt ext c s) as [[[res v]|e] s2] eqn:Hat;
    destruct (attempt_log ext _ _ _ _ Hat)
      as (Hctx & pre & dels & Hlog & Hpre & Hok & _);
    destruct (attempt_counts (exe_execute (ctx_execute (st_ctx s)))
                (exec_request ext (st_ctx s) c) pre dels Hpre)
      as (Hruns & Hrc & _ & Hck).
  2:{ injection Hj as <- <-. rewrite Hctx.
      split; [apply same_inputs_refl|]. eexists. split; [exact Hlog|].
      rewrite Hruns, Hrc, Hck.
      repeat split; try done; try lia.
      destruct Hpre as [->|(ty & args & ->)]; cbn; lia. }
  destruct (Hok _ _ eq_refl) as (_ & _ & Hsc).
  assert (Hpre1 : (length pre <= 1)%nat)
    by (destruct Hpre as [->|(ty & args & ->)]; cbn; lia).
  destruct (retry_due_dec runner (st_ctx s2) c v.1.1) as [Hdue|Hnot].
  - destruct (retry_is_due ext c sub runner res v s2 Hdue)
      as (run & -> & Heq).
    rewrite Heq in Hj. destruct Hdue as (_ & Hnz & _).
    destruct (Hrunner run eq_refl _ _ _ Hj)
      as (Hsame & evs' & Hlog' & Hruns' & Hrc' & Hck' & Hbudget & Hnn & Hres).
    cbn in Hsame, Hlog', Hbudget, Hnn. rewrite Hctx in *.
    split.
    { eapply same_inputs_trans; [exact Hsame|]. by repeat split. }
    exists ((EvRunQueued (exe_execute (ctx_execute (st_ctx s)))
                         (exec_request ext (st_ctx s) c)
             :: pre ++ map EvDel dels) ++ [EvRunner sub] ++ evs').
    split; [rewrite Hlog', Hlog; by rewrite <- !app_assoc|].
    rewrite !sandbox_runs_app, !runner_calls_app, !checker_calls_app.
    rewrite Hruns, Hrc, Hck, Hruns'.
    change (sandbox_runs [EvRunner sub]) with 0%nat.
    change (runner_calls [EvRunner sub]) with 1%nat.
    change (checker_calls [EvRunner sub]) with 0%nat.
    repeat split; try lia.
    intros r Hr Hacc. specialize (Hres r Hr Hacc). lia.
  - rewrite (retry_not_due ext) in Hj by done.
    assert (Hcalls : forall r, o = Ok r ->
              cr_status r = STATUS_ACCEPTED \/ cr_score r <> 0 ->
              (1 <= length pre)%nat).
    { intros r Hr Hacc.
      pose proof (report_reports ext _ _ _ _ _ _ _ Hj) as [Honly _].
      rewrite (Honly r Hr) in Hacc.
      destruct v as [[status score] message]. cbn in Hacc, Hsc.
      destruct pre; [by destruct (Hsc Hacc)|cbn; lia]. }
    apply report_cases in Hj.
    destruct Hj as [(_ & Ho & ->)|(_ & -> & Ho)].
    + rewrite Hctx. split; [apply same_inputs_refl|].
      eexists. split; [exact Hlog|]. rewrite Hruns, Hrc, Hck.
      repeat split; try lia; try done; destruct runner; lia.
    + unfold analysed. cbn [st_ctx st_log]. rewrite Hctx.
      split; [by repeat split|].
      eexists. split; [rewrite Hlog; by rewrite <- app_assoc|].
      rewrite !sandbox_runs_app, !runner_calls_app, !checker_calls_app.
      rewrite Hruns, Hrc, Hck.
      change (sandbox_runs [EvRunAnalysis ?a ?b ?x]) with 0%nat.
      change (runner_calls [EvRunAnalysis ?a ?b ?x]) with 0%nat.
      change (checker_calls [EvRunAnalysis ?a ?b ?x]) with 0%nat.
      repeat split; try lia; try done.
      * cbn. lia.
      * intros r Hr Hacc. specialize (Hcalls r Hr Hacc). lia.
Qed.

Lemma runner_fn_accounted r sub :
  accounted (Nat.pred (depth r)) (runner_fn ext r sub).
Proof.
  revert sub. induction r as [c|c next IH]; intros sub; cbn [runner_fn depth].
  - by apply (judgeCase_accounted 0 c sub None).
  - assert (Hd : S (Nat.pred (depth next)) = depth next)
      by (destruct next; cbn; lia).
    cbn [Nat.pred]. rewrite <- Hd.
    apply (judgeCase_accounted (Nat.pred (depth next)) c sub
             (Some (runner_fn ext next))).
    intros run [= <-]. apply IH.
Qed.

Lemma invoke_accounted i :
  accounted (runner_depth (inv_runner i)) (invoke ext i).
Proof.
  unfold invoke. destruct (inv_runner i) as [r|]; cbn [runner_depth].
  - assert (Hd : S (Nat.pred (depth r)) = depth r)
      by (destruct r; cbn; lia).
    rewrite <- Hd.
    apply (judgeCase_accounted (Nat.pred (depth r)) _ _
             (Some (runner_fn ext r))).
    intros run [= <-]. apply runner_fn_accounted.
  - by apply (judgeCase_accounted 0 _ _ None).
Qed.

Lemma run_invocations_accounted l (s : State W) :
  exists outs s' evs,
    run_invocations ext l s = (Ok outs, s') /\
    length outs = length l /\
    same_inputs (st_ctx s') (st_ctx s) /\
    st_log s' = st_log s ++ evs /\
    sandbox_runs evs = (runner_calls evs + length l)%nat /\
    (checker_calls evs <= sandbox_runs evs)%nat /\
    ctx_rerun (st_ctx s') = ctx_rerun (st_ctx s) - Z.of_nat (runner_calls evs) /\
    (0 <= ctx_rerun (st_ctx s) -> 0 <= ctx_rerun (st_ctx s')).
Proof.
  revert s. induction l as [|i l IH]; intros s.
  - exists [], s, []. cbn. rewrite app_nil_r.
    repeat split; try done; lia.
  - unfold run_invocations. cbn [forM]. rewrite bind_run.
    unfold settled at 1.
    destruct (invoke ext i s) as [o s1] eqn:Hi.
    destruct (invoke_accounted i _ _ _ Hi)
      as (Hsame1 & evs1 & Hlog1 & Hruns1 & _ & Hck1 & Hb1 & Hnn1 & _).
    rewrite bind_run.
    destruct (IH s1)
      as (outs & s' & evs2 & Hrun & Hlen & Hsame2 & Hlog2 & Hruns2 & Hck2
          & Hb2 & Hnn2).
    unfold run_invocations in Hrun. rewrite Hrun.
    exists (o :: outs), s', (evs1 ++ evs2).
    split; [done|]. split; [cbn; by rewrite Hlen|].
    split; [by eapply same_inputs_trans|].
    split; [by rewrite Hlog2, Hlog1, <- app_assoc|].
    rewrite sandbox_runs_app, runner_calls_app, checker_calls_app.
    cbn [length]. repeat split; try lia; auto.
Qed.

(** X5.  Over any sequence of invocations, the sandbox is run once per
    invocation and once more per retry, and the checker is called at most
    once per sandbox run. *)
Theorem sandbox_runs_per_attempt l (s : State W) :
  exists outs s' evs,
    run_invocations ext l s = (Ok outs, s') /\
    st_log s' = st_log s ++ evs /\
    sandbox_runs evs = (length l + runner_calls evs)%nat /\
    (checker_calls evs <= sandbox_runs evs)%nat.
Proof.
  destruct (run_invocations_accounted l s)
    as (outs & s' & evs & Hrun & _ & _ & Hlog & Hruns & Hck & _).
  exists outs, s', evs. repeat split; try done. lia.
Qed.

(** X6.  One invocation retries at most as many times as its runner nests
    case runners: never without a runner, and at most once when the
    runner is [judgeCase(c)] itself, which line 56 calls without a
    runner. *)
Theorem retries_bounded_by_nesting i (s : State W) :
  exists o s' evs,
    invoke ext i s = (o, s') /\
    st_log s' = st_log s ++ evs /\
    (runner_calls evs <= runner_depth (inv_runner i))%nat /\
    (inv_runner i = None -> runner_calls evs = 0%nat) /\
    (forall c, inv_runner i = Some (RunnerLast c) ->
               (runner_calls evs <= 1)%nat).
Proof.
  destruct (invoke ext i s) as [o s'] eqn:Hi.
  destruct (invoke_accounted i _ _ _ Hi)
    as (_ & evs & Hlog & _ & Hrc & _).
  exists o, s', evs. split; [done|]. split; [done|]. split; [done|].
  split.
  - intros Hnone. rewrite Hnone in Hrc. cbn in Hrc. lia.
  - intros c Hlast. by rewrite Hlast in Hrc.
Qed.

(** X7.  Over any sequence of invocations, the budget goes down by
    exactly the number of retries; a budget that is not negative stays
    so, and then the retries are at most the budget there was. *)
Theorem budget_pays_for_retries l (s : State W) :
  exists outs s' evs,
    run_invocations ext l s = (Ok outs, s') /\
    st_log s' = st_log s ++ evs /\
    ctx_rerun (st_ctx s') = ctx_rerun (st_ctx s) - Z.of_nat (runner_calls evs) /\
    (0 <= ctx_rerun (st_ctx s) ->
     0 <= ctx_rerun (st_ctx s') /\
     Z.of_nat (runner_calls evs) <= ctx_rerun (st_ctx s)).
Proof.
  destruct (run_invocations_accounted l s)
    as (outs & s' & evs & Hrun & _ & _ & Hlog & _ & _ & Hb & Hnn).
  exists outs, s', evs. split; [done|]. split; [done|]. split; [done|].
  intros Hstart. specialize (Hnn Hstart). lia.
Qed.

(** X8.  Whatever happens over a sequence of invocations, the context
    keeps its language, code, input, executables, configuration,
    environment and request: only the budget and the analysis flag are
    ever assigned. *)
Theorem context_kept l (s : State W) :
  exists outs s',
    run_invocations ext l s = (Ok outs, s') /\
    length outs = length l /\
    same_inputs (st_ctx s') (st_ctx s).
Proof.
  destruct (run_invocations_accounted l s)
    as (outs & s' & evs & Hrun & Hlen & Hsame & _).
  by exists outs, s'.
Qed.

(** X9.  An invocation returns ACCEPTED, or a score other than 0, only
    after a checker call: the sandbox's verdict alone never accepts a
    case and never gives it points. *)
Theorem accepted_only_by_checker i (s : State W) :
  exists o s' evs,
    invoke ext i s = (o, s') /\
    st_log s' = st_log s ++ evs /\
    forall r,
      o = Ok r ->
      cr_status r = STATUS_ACCEPTED \/ cr_score r <> 0 ->
      (1 <= checker_calls evs)%nat.
Proof.
  destruct (invoke ext i s) as [o s'] eqn:Hi.
  destruct (invoke_accounted i _ _ _ Hi)
    as (_ & evs & Hlog & _ & _ & _ & _ & _ & Hres).
  by exists o, s', evs.
Qed.

End Accounting.

(** ** The analysis flag *)

Section Flag.

Context {W : Type}.
Variable ext : Externals W.

Lemma judgeCase_flag_tracked c sub runner :
  (forall run, runner = Some run -> flag_tracked (run sub)) ->
  flag_tracked (judgeCase ext c sub runner).
Proof.
  intros Hrunner s o s' Hj. rewrite judgeCase_run in Hj.
  destruct (attempt ext c s) as [[[res v]|e] s2] eqn:Hat;
    destruct (attempt_frame ext _ _ _ _ Hat)
      as (Hctx & evs & Hlog & Ha & _).
  2:{ injection Hj as <- <-. rewrite Hctx. split; [done|].
      split; [|done]. exists evs. split; [done|]. by left. }
  destruct (retry_due_dec runner (st_ctx s2) c v.1.1) as [Hdue|Hnot].
  - destruct (retry_is_due ext c sub runner res v s2 Hdue)
      as (run & -> & Heq).
    rewrite Heq in Hj.
    destruct (Hrunner run eq_refl _ _ _ Hj)
      as (Hreq & (evs' & Hlog' & Hcalls) & Hres).
    cbn in Hreq, Hlog', Hcalls, Hres. rewrite Hctx in *.
    split; [done|]. split; [|done].
    exists (evs ++ [EvRunner sub] ++ evs').
    split; [rewrite Hlog', Hlog; by rewrite <- !app_assoc|].
    rewrite !analysis_calls_app, Ha.
    change (analysis_calls [EvRunner sub]) with 0%nat.
    done.
  - rewrite (retry_not_due ext) in Hj by done.
    pose proof (report_reports ext _ _ _ _ _ _ _ Hj) as [Honly _].
    apply report_cases in Hj.
    destruct Hj as [(Hdue & _ & ->)|(Hdue & -> & _)].
    + rewrite Hctx in *. split; [done|]. split.
      * exists evs. split; [done|]. by left.
      * intros r Hr Hst Hrej. rewrite (Honly r Hr) in Hst.
        destruct (ctx_analysis (st_ctx s)) eqn:Hflag; [done|].
        assert (analysis_due (st_ctx s) v.1.1 = true) as Hyes; [|congruence].
        apply analysis_due_iff.
        destruct v as [[status score] message]. done.
    + apply analysis_due_iff in Hdue. rewrite Hctx in Hdue.
      destruct Hdue as (_ & Hflag & _).
      unfold analysed. cbn [st_ctx st_log]. rewrite Hctx.
      split; [done|]. split; [|done].
      eexists. split; [rewrite Hlog; by rewrite <- app_assoc|].
      right. rewrite analysis_calls_app, Ha. done.
Qed.

Lemma runner_fn_flag_tracked r sub : flag_tracked (runner_fn ext r sub).
Proof.
  revert sub. induction r as [c|c next IH]; intros sub; cbn.
  - by apply judgeCase_flag_tracked.
  - apply judgeCase_flag_tracked. intros run [= <-]. apply IH.
Qed.

Lemma invoke_flag_tracked i : flag_tracked (invoke ext i).
Proof.
  unfold invoke. apply judgeCase_flag_tracked.
  destruct (inv_runner i) as [r|]; [|done].
  intros run [= <-]. apply runner_fn_flag_tracked.
Qed.

Lemma run_invocations_flag l (s : State W) :
  exists outs s' evs,
    run_invocations ext l s = (Ok outs, s') /\
    ctx_request (st_ctx s') = ctx_request (st_ctx s) /\
    st_log s' = st_log s ++ evs /\
    ((analysis_calls evs = 0%nat /\
      ctx_analysis (st_ctx s') = ctx_analysis (st_ctx s)) \/
     (analysis_calls evs = 1%nat /\
      ctx_analysis (st_ctx s) = false /\
      ctx_analysis (st_ctx s') = true)) /\
    (forall r, Ok r ∈ outs ->
       cr_status r = STATUS_WRONG_ANSWER \/
       cr_status r = STATUS_RUNTIME_ERROR ->
       rejudged (ctx_request (st_ctx s)) = false ->
       ctx_analysis (st_ctx s') = true).
Proof.
  revert s. induction l as [|i l IH]; intros s.
  - exists [], s, []. cbn. rewrite app_nil_r.
    split; [done|]. split; [done|]. split; [done|]. split; [by left|].
    intros r Hin. by apply elem_of_nil in Hin.
  - unfold run_invocations. cbn [forM]. rewrite bind_run.
    unfold settled at 1.
    destruct (invoke ext i s) as [o s1] eqn:Hi.
    destruct (invoke_flag_tracked i _ _ _ Hi)
      as (Hreq1 & (evs1 & Hlog1 & Hcalls1) & Hres1).
    rewrite bind_run.
    destruct (IH s1)
      as (outs & s' & evs2 & Hrun & Hreq2 & Hlog2 & Hcalls2 & Hres2).
    unfold run_invocations in Hrun. rewrite Hrun.
    exists (o :: outs), s', (evs1 ++ evs2).
    split; [done|]. split; [congruence|].
    split; [by rewrite Hlog2, Hlog1, <- app_assoc|].
    rewrite analysis_calls_app.
    assert (Hmono : ctx_analysis (st_ctx s1) = true ->
                    ctx_analysis (st_ctx s') = true).
    { intros Hset.
      destruct Hcalls2 as [(_ & ->)|(_ & Hclear & _)]; congruence. }
    split.
    + destruct Hcalls1 as [(-> & Hsame1)|(-> & Hclear1 & Hset1)],
               Hcalls2 as [(-> & Hsame2)|(-> & Hclear2 & Hset2)].
      * left. split; [done|]. congruence.
      * right. split; [done|]. split; congruence.
      * right. split; [done|]. split; congruence.
      * congruence.
    + intros r Hin Hst Hrej. apply elem_of_cons in Hin.
      destruct Hin as [Hhead|Htail].
      * apply Hmono. by apply (Hres1 r).
      * apply (Hres2 r); [done|done|]. congruence.
Qed.

(** X10.  Over any sequence of invocations that starts with the flag
    clear, the flag ends up set exactly when the analysis was called;
    and when the request is not a rejudge, one result that is
    WRONG_ANSWER or RUNTIME_ERROR is enough for the analysis to have been
    called. *)
Theorem analysis_follows_first_failure l (s : State W) :
  exists outs s' evs,
    run_invocations ext l s = (Ok outs, s') /\
    st_log s' = st_log s ++ evs /\
    (ctx_analysis (st_ctx s) = false ->
     (ctx_analysis (st_ctx s') = true <-> analysis_calls evs = 1%nat)) /\
    (ctx_analysis (st_ctx s) = false ->
     rejudged (ctx_request (st_ctx s)) = false ->
     (exists r, Ok r ∈ outs /\
                (cr_status r = STATUS_WRONG_ANSWER \/
                 cr_status r = STATUS_RUNTIME_ERROR)) ->
     analysis_calls evs = 1%nat).
Proof.
  destruct (run_invocations_flag l s)
    as (outs & s' & evs & Hrun & _ & Hlog & Hcalls & Hres).
  exists outs, s', evs. split; [done|]. split; [done|].
  assert (Hiff : ctx_analysis (st_ctx s) = false ->
                 (ctx_analysis (st_ctx s') = true <->
                  analysis_calls evs = 1%nat)).
  { intros Hclear.
    destruct Hcalls as [(-> & Hsame)|(-> & _ & Hset)]; split; try done.
    congruence. }
  split; [done|].
  intros Hclear Hrej (r & Hin & Hst). apply Hiff; [done|].
  by apply (Hres r).
Qed.

End Flag.

(** ** Results without errors *)

Section Returns.

Context {W : Type}.
Variable ext : Externals W.






End Returns.

(** * More runs *)

(** X1 with an empty script: the sandbox is unreachable. *)
Lemma judgeCase_sandbox_failure_witness :
  let c := Script.case 1000 256 in
  let s := Script.state (Script.context 2 false false) (Script.world [] []) in
  let e := "sandbox unreachable" in
  runQueued Script.ext (exe_execute (ctx_execute (st_ctx s)))
            (exec_request Script.ext (st_ctx s) c) (st_world s)
  = (Throw e, Script.world [] []) /\
  exists s',
    judgeCase Script.ext c Script.sub (Script.retry c) s = (Throw e, s') /\
    st_ctx s' = st_ctx s /\
    st_world s' = Script.world [] [] /\
    st_log s'
    = st_log s ++ [EvRunQueued (exe_execute (ctx_execute (st_ctx s)))
                               (exec_request Script.ext (st_ctx s) c)].
Proof.
  cbn zeta.
  set (c := Script.case 1000 256).
  set (s := Script.state (Script.context 2 false false) (Script.world [] [])).
  assert (Hrun : runQueued Script.ext (exe_execute (ctx_execute (st_ctx s)))
                   (exec_request Script.ext (st_ctx s) c) (st_world s)
                 = (Throw "sandbox unreachable", Script.world [] []))
    by reflexivity.
  split; [exact Hrun|].
  exact (judgeCase_sandbox_failure Script.ext c Script.sub (Script.retry c) s
           _ _ Hrun).
Defined.

(** X2 with the checker type ["nonesuch"]. *)
Lemma judgeCase_checker_missing_witness :
  let c := Script.case 1000 256 in
  let s := Script.state Faults.unknown_checker
                        (Script.world [Ok Script.fast] []) in
  (sandbox_reports Script.ext c s Script.fast (Script.world [] []) /\
   res_status Script.fast = STATUS_ACCEPTED /\
   ~ res_time Script.fast > c_time c /\
   ~ res_memory Script.fast > c_memory c * 1024 /\
   checkers Script.ext !! cfg_checker_type (ctx_config (st_ctx s)) = None) /\
  exists e s',
    judgeCase Script.ext c Script.sub None s = (Throw e, s') /\
    st_ctx s' = st_ctx s /\
    st_world s' = Script.world [] [] /\
    st_log s'
    = st_log s ++ [EvRunQueued (exe_execute (ctx_execute (st_ctx s)))
                               (exec_request Script.ext (st_ctx s) c)].
Proof.
  cbn zeta.
  set (c := Script.case 1000 256).
  set (s := Script.state Faults.unknown_checker
                         (Script.world [Ok Script.fast] [])).
  assert (Hrun : sandbox_reports Script.ext c s Script.fast
                                 (Script.world [] []))
    by reflexivity.
  assert (Hst : res_status Script.fast = STATUS_ACCEPTED) by reflexivity.
  assert (Ht : ~ res_time Script.fast > c_time c) by (cbn; lia).
  assert (Hm : ~ res_memory Script.fast > c_memory c * 1024) by (cbn; lia).
  assert (Hreg : checkers Script.ext
                   !! cfg_checker_type (ctx_config (st_ctx s)) = None)
    by (vm_compute; reflexivity).
  split; [by repeat split|].
  exact (judgeCase_checker_missing Script.ext c Script.sub None s
           Script.fast _ Hrun Hst Ht Hm Hreg).
Defined.

(** X3 with a checker that crashes. *)
Lemma judgeCase_checker_failure_witness :
  let c := Script.case 1000 256 in
  let e := "checker crashed" in
  let s := Script.state (Script.context 2 false false)
                        (Script.world [Ok Script.fast] [Throw e]) in
  (sandbox_reports Script.ext c s Script.fast (Script.world [] [Throw e]) /\
   res_status Script.fast = STATUS_ACCEPTED /\
   ~ res_time Script.fast > c_time c /\
   ~ res_memory Script.fast > c_memory c * 1024 /\
   checkers Script.ext !! cfg_checker_type (ctx_config (st_ctx s))
   = Some Script.checker /\
   Script.checker (checker_args (st_ctx s) c Script.fast)
                  (Script.world [] [Throw e])
   = (Throw e, Script.world [] [])) /\
  exists s',
    judgeCase Script.ext c Script.sub (Script.retry c) s = (Throw e, s') /\
    st_ctx s' = st_ctx s /\
    st_world s' = Script.world [] [] /\
    st_log s'
    = st_log s ++ [EvRunQueued (exe_execute (ctx_execute (st_ctx s)))
                               (exec_request Script.ext (st_ctx s) c);
                   EvChecker (cfg_checker_type (ctx_config (st_ctx s)))
                             (checker_args (st_ctx s) c Script.fast)].
Proof.
  cbn zeta.
  set (c := Script.case 1000 256).
  set (s := Script.state (Script.context 2 false false)
              (Script.world [Ok Script.fast] [Throw "checker crashed"])).
  assert (Hrun : sandbox_reports Script.ext c s Script.fast
                   (Script.world [] [Throw "checker crashed"]))
    by reflexivity.
  assert (Hst : res_status Script.fast = STATUS_ACCEPTED) by reflexivity.
  assert (Ht : ~ res_time Script.fast > c_time c) by (cbn; lia).
  assert (Hm : ~ res_memory Script.fast > c_memory c * 1024) by (cbn; lia).
  assert (Hreg : checkers Script.ext
                   !! cfg_checker_type (ctx_config (st_ctx s))
                 = Some Script.checker)
    by (vm_compute; reflexivity).
  assert (Hchk : Script.checker (checker_args (st_ctx s) c Script.fast)
                   (Script.world [] [Throw "checker crashed"])
                 = (Throw "checker crashed", Script.world [] []))
    by reflexivity.
  split; [by repeat split|].
  exact (judgeCase_checker_failure Script.ext c Script.sub (Script.retry c) s
           Script.fast _ Script.checker _ _ Hrun Hst Ht Hm Hreg Hchk).
Defined.

(** X4 with a crash (signal 11) in a world whose analysis fails. *)
Lemma judgeCase_analysis_failure_witness :
  let c := Script.case 1000 256 in
  let res := Script.crashed (Some 11) true in
  let message := MsgString "Segmentation fault" in
  let e := "analysis failed" in
  let s := Script.state (Script.context 2 false false)
                        (Faults.analysis_down [Ok res] []) in
  let s2 := (attempt Script.ext c s).2 in
  (attempt Script.ext c s
   = (Ok (res, (STATUS_RUNTIME_ERROR, 0, message)), s2) /\
   ~ @retry_due Script.World None (st_ctx s) c STATUS_RUNTIME_ERROR /\
   analysis_due (st_ctx s) STATUS_RUNTIME_ERROR = true /\
   runAnalysis Script.ext (set_analysis true (st_ctx s))
               (ctx_execute (st_ctx s)) (Src (ctx_input (st_ctx s)))
               (st_world s2)
   = (Throw e, st_world s2)) /\
  exists s' evs,
    judgeCase Script.ext c Script.sub None s = (Throw e, s') /\
    st_ctx s' = set_analysis true (st_ctx s) /\
    st_log s'
    = st_log s ++ evs ++ [EvRunAnalysis (set_analysis true (st_ctx s))
                                        (ctx_execute (st_ctx s))
                                        (Src (ctx_input (st_ctx s)))] /\
    deletions evs = fileId_values (res_fileIds res) /\
    analysis_calls evs = 0%nat.
Proof.
  cbn zeta.
  set (c := Script.case 1000 256).
  set (res := Script.crashed (Some 11) true).
  set (s := Script.state (Script.context 2 false false)
                         (Faults.analysis_down [Ok res] [])).
  assert (Hat : attempt Script.ext c s
                = (Ok (res, (STATUS_RUNTIME_ERROR, 0,
                             MsgString "Segmentation fault")),
                   (attempt Script.ext c s).2))
    by (vm_compute; reflexivity).
  assert (Hnot : ~ @retry_due Script.World None (st_ctx s) c
                     STATUS_RUNTIME_ERROR)
    by (intros (_ & _ & _ & Heq); discriminate Heq).
  assert (Hdue : analysis_due (st_ctx s) STATUS_RUNTIME_ERROR = true)
    by reflexivity.
  assert (Hthrow : runAnalysis Script.ext (set_analysis true (st_ctx s))
                     (ctx_execute (st_ctx s)) (Src (ctx_input (st_ctx s)))
                     (st_world (attempt Script.ext c s).2)
                   = (Throw "analysis failed",
                      st_world (attempt Script.ext c s).2))
    by (vm_compute; reflexivity).
  split; [by repeat split|].
  exact (judgeCase_analysis_failure Script.ext c Script.sub None s res
           STATUS_RUNTIME_ERROR 0 (MsgString "Segmentation fault") _ _ _
           Hat Hnot Hdue Hthrow).
Defined.


(** A budget of 1 shared by three cases that all time out: one retry, four
    sandbox runs, and the budget ends at 0. *)
Example one_retry_for_three_cases :
  let c := Script.case 1000 256 in
  let i := {| inv_case := c; inv_subtask := Script.sub;
              inv_runner := Some (RunnerLast c) |} in
  let s' := (run_invocations Steady.ext [i; i; i]
               (Build_State (Script.context 1 false false) tt [])).2 in
  runner_calls (st_log s') = 1%nat /\
  sandbox_runs (st_log s') = 4%nat /\
  ctx_rerun (st_ctx s') = 0.
Proof. repeat split; vm_compute; reflexivity. Qed.
